(** * MAST ingredients: the BaseIngredient job facade

    A shallow embedding of [MAST/ingredients/baseingredient.py].  The methods
    of [BaseIngredient] are Python 2 methods that read the ingredient's
    keyword dictionary, touch the process state (working directory, file
    system) and delegate to collaborators that live in other modules of the
    package ([vasp_checker], [vasp_error], [queue_commands], [dirutil]).

    The embedding keeps that shape: Python values are an untyped [value],
    dictionaries are objects in a store that are reached through references,
    every method is a computation in a state-and-exception monad over the
    process state, and the collaborators of other modules are reached through
    one oracle whose calls are recorded in a trace. *)

From Stdlib Require Import ZArith Ascii String.
From stdpp Require Import gmap strings list.

Open Scope string_scope.

(** ** Python values and the object store *)

Abbreviation loc := nat.

(** [VRef l] is a reference to the dict object stored at [l]; [VObj o] is an
    object of a foreign library (a pymatgen structure, a list of image
    structures) that this module only passes around. *)
Inductive value : Type :=
| VNone
| VBool (b : bool)
| VInt (z : Z)
| VStr (s : string)
| VRef (l : loc)
| VObj (o : nat).

#[global] Instance value_eq_dec : EqDecision value.
Proof. solve_decision. Defined.

Abbreviation dict := (gmap string value).

(** Python truthiness, as used by [if x:].  A dict is true when it has an
    entry; a reference to no object counts as false, a foreign object as
    true. *)
Definition truthy (h : list dict) (v : value) : bool :=
  match v with
  | VNone => false
  | VBool b => b
  | VInt z => negb (z =? 0)%Z
  | VStr s => negb (String.eqb s "")
  | VRef l => match h !! l with
              | Some d => negb (bool_decide (d = ∅))
              | None => false
              end
  | VObj _ => true
  end.

(** ** Exceptions and results *)

Inductive exn : Type :=
| KeyError (key : string)
| TypeError
| AttributeError
| OSError
| MASTError (cls msg : string)
| ForeignError (tag : string).

Inductive result (A : Type) : Type :=
| Ok (a : A)
| Raise (e : exn).
Arguments Ok {A} a.
Arguments Raise {A} e.

(** ** The process state *)

(** The file system as far as this module looks at it: which paths are
    directories, which are other files, and which directories carry the lock
    marker.  Paths are absolute spellings. *)
Record FS : Type := mkFS {
  dirs : gset string;
  files : gset string;
  locked : gset string
}.

(** Calls into the collaborators of other modules. *)
Inductive call : Type :=
| checker_get_structure_from_file (filepath : value)
| checker_forward_parent_structure (parentpath childpath newname : value)
| checker_forward_parent_energy (parentpath childpath newname : value)
| checker_is_complete (path : value)
| checker_images_complete (path images : value)
| checker_is_ready_to_run (path : value)
| checker_set_up_program_input (keywords : dict)
| checker_set_up_program_input_neb (keywords : dict) (image_structures : value)
| checker_get_path_to_write_neb_parent_energy (path images parent : value)
| error_loop_through_errors (path : value) (images : option value)
| script_write_submit_script (keywords : dict)
| queue_direct_shell_command
| queue_queue_submission_command
| subprocess_popen_wait (cmd : value).

#[global] Instance call_eq_dec : EqDecision call.
Proof. solve_decision. Defined.

Inductive event : Type :=
| EvCall (c : call)
| EvPrint (line : string).

#[global] Instance event_eq_dec : EqDecision event.
Proof. solve_decision. Defined.

Record World : Type := mkWorld {
  cwd : string;
  fs : FS;
  heap : list dict;
  trace : list event
}.

Definition set_cwd (d : string) (w : World) : World :=
  mkWorld d (fs w) (heap w) (trace w).
Definition set_fs (f : FS) (w : World) : World :=
  mkWorld (cwd w) f (heap w) (trace w).
Definition set_heap (h : list dict) (w : World) : World :=
  mkWorld (cwd w) (fs w) h (trace w).
Definition log (e : event) (w : World) : World :=
  mkWorld (cwd w) (fs w) (heap w) (trace w ++ [e]).

(** ** The monad of methods: state passing with exceptions.  A raised
    exception keeps the state reached when it was raised. *)

Definition M (A : Type) : Type := World -> result A * World.

Definition ret {A} (a : A) : M A := fun w => (Ok a, w).
Definition raise {A} (e : exn) : M A := fun w => (Raise e, w).
Definition bind {A B} (m : M A) (k : A -> M B) : M B :=
  fun w => match m w with
           | (Ok a, w') => k a w'
           | (Raise e, w') => (Raise e, w')
           end.

Notation "x <- m ; k" := (bind m (fun x => k))
  (at level 20, m at level 100, k at level 200, only parsing).
Notation "' p <- m ; k" := (bind m (fun p => k))
  (at level 20, p pattern, m at level 100, k at level 200, only parsing).
Notation "m ;;; k" := (bind m (fun _ => k))
  (at level 100, k at level 200, only parsing, right associativity).

(** [try: m except OSError: h] *)
Definition try_except_OSError {A} (m : M A) (h : M A) : M A :=
  fun w => match m w with
           | (Raise OSError, w') => h w'
           | r => r
           end.

(** ** Python primitives *)

(** [d[k]] *)
Definition getitem (d : dict) (k : string) : M value :=
  match d !! k with
  | Some v => ret v
  | None => raise (KeyError k)
  end.

(** The dict behind a value; attribute access on anything else fails. *)
Definition as_dict (v : value) : M dict :=
  fun w => match v with
           | VRef l => match heap w !! l with
                       | Some d => (Ok d, w)
                       | None => (Raise AttributeError, w)
                       end
           | _ => (Raise AttributeError, w)
           end.

(** [v + s] for a string literal [s] *)
Definition add_str (v : value) (s : string) : M value :=
  match v with
  | VStr a => ret (VStr (a +:+ s))
  | _ => raise TypeError
  end.

(** [if v:] *)
Definition truth (v : value) : M bool :=
  fun w => (Ok (truthy (heap w) v), w).

(** [d.copy()]: a fresh dict object with the same entries. *)
Definition alloc (d : dict) : M value :=
  fun w => (Ok (VRef (length (heap w))), set_heap (heap w ++ [d]) w).

Definition dict_copy (v : value) : M value :=
  d <- as_dict v;
  alloc d.

(** [r[k] = v] and [del r[k]] on the dict object behind [r]. *)
Definition dict_setitem (r : value) (k : string) (v : value) : M value :=
  fun w => match r with
           | VRef l => match heap w !! l with
                       | Some d => (Ok VNone, set_heap (<[l := <[k := v]> d]> (heap w)) w)
                       | None => (Raise TypeError, w)
                       end
           | _ => (Raise TypeError, w)
           end.

Definition dict_delitem (r : value) (k : string) : M value :=
  fun w => match r with
           | VRef l => match heap w !! l with
                       | Some d => match d !! k with
                                   | Some _ => (Ok VNone, set_heap (<[l := delete k d]> (heap w)) w)
                                   | None => (Raise (KeyError k), w)
                                   end
                       | None => (Raise TypeError, w)
                       end
           | _ => (Raise TypeError, w)
           end.

(** [print line] *)
Definition py_print (line : string) : M unit :=
  fun w => (Ok tt, log (EvPrint line) w).

(** ** The operating system *)

Definition is_absolute (p : string) : bool :=
  match p with
  | String c _ => Ascii.eqb c "/"%char
  | EmptyString => false
  end.

(** A path as the process sees it from its working directory. *)
Definition resolve (d p : string) : string :=
  if is_absolute p then p else d +:+ "/" +:+ p.

(** The directories above a path: its prefixes up to each separator. *)
Fixpoint ancestors_from (pre rest : string) : list string :=
  match rest with
  | EmptyString => []
  | String c r =>
      (if Ascii.eqb c "/"%char && negb (String.eqb pre "") then [pre] else [])
        ++ ancestors_from (pre +:+ String c EmptyString) r
  end.

Definition ancestors (p : string) : list string := ancestors_from "" p.

Definition path_exists (f : FS) (p : string) : bool :=
  bool_decide (p ∈ dirs f) || bool_decide (p ∈ files f).

(** [os.getcwd()] *)
Definition os_getcwd : M value := fun w => (Ok (VStr (cwd w)), w).

(** [os.chdir(v)] *)
Definition os_chdir (v : value) : M unit :=
  fun w => match v with
           | VStr p =>
               let t := resolve (cwd w) p in
               if bool_decide (t ∈ dirs (fs w)) then (Ok tt, set_cwd t w)
               else (Raise OSError, w)
           | _ => (Raise TypeError, w)
           end.

(** A file sits where a directory above the path would have to be. *)
Definition blocked (f : FS) (p : string) : bool :=
  existsb (fun a => bool_decide (a ∈ files f)) (ancestors p).

(** [os.makedirs(v)]: creates the leaf and the missing directories above it;
    fails when the leaf exists already or a file is in the way. *)
Definition os_makedirs (v : value) : M unit :=
  fun w => match v with
           | VStr p =>
               let t := resolve (cwd w) p in
               if path_exists (fs w) t then (Raise OSError, w)
               else if blocked (fs w) t then (Raise OSError, w)
               else (Ok tt,
                     set_fs (mkFS (dirs (fs w) ∪ list_to_set (ancestors t) ∪ {[t]})
                                  (files (fs w)) (locked (fs w))) w)
           | _ => (Raise TypeError, w)
           end.

(** [os.path.exists(v)] *)
Definition os_path_exists (v : value) : M bool :=
  fun w => match v with
           | VStr p => (Ok (path_exists (fs w) (resolve (cwd w) p)), w)
           | _ => (Raise TypeError, w)
           end.

(** ** Collaborators *)

(** The checker, the error handler, the queue commands and the launched
    process are code of other modules.  A call to one of them is answered by
    an oracle, which sees the working directory and may change the file
    system and raise; the call is recorded in the trace. *)
Definition Oracle : Type := call -> string -> FS -> result value * FS.

Definition call_out (oracle : Oracle) (c : call) : M value :=
  fun w => let '(r, f) := oracle c (cwd w) (fs w) in
           (r, set_fs f (log (EvCall c) w)).

(** What [dirutil] does when asked to lock a directory that is locked
    already, or to unlock one that is not locked. *)
Record LockPolicy : Type := mkLockPolicy {
  relock_raises : bool;
  unlock_free_raises : bool
}.

Definition set_locked (l : gset string) (w : World) : World :=
  set_fs (mkFS (dirs (fs w)) (files (fs w)) l) w.

(** Modelled from the spec: [dirutil.directory_is_locked], a pure predicate
    on the presence of the lock marker in the directory. *)
Definition dirutil_directory_is_locked (v : value) : M value :=
  fun w => match v with
           | VStr p => (Ok (VBool (bool_decide (resolve (cwd w) p ∈ locked (fs w)))), w)
           | _ => (Raise TypeError, w)
           end.

(** Modelled from the spec: [dirutil.lock_directory] creates the marker; on
    a directory that is locked already it does nothing or fails, as the
    policy says, and the marker stays. *)
Definition dirutil_lock_directory (policy : LockPolicy) (v : value) : M value :=
  fun w => match v with
           | VStr p =>
               let t := resolve (cwd w) p in
               if bool_decide (t ∈ locked (fs w)) then
                 if relock_raises policy then (Raise OSError, w) else (Ok VNone, w)
               else (Ok VNone, set_locked (locked (fs w) ∪ {[t]}) w)
           | _ => (Raise TypeError, w)
           end.

(** Modelled from the spec: [dirutil.unlock_directory] removes the marker;
    on a directory that is not locked it does nothing or fails, as the policy
    says. *)
Definition dirutil_unlock_directory (policy : LockPolicy) (v : value) : M value :=
  fun w => match v with
           | VStr p =>
               let t := resolve (cwd w) p in
               if bool_decide (t ∈ locked (fs w)) then
                 (Ok VNone, set_locked (locked (fs w) ∖ {[t]}) w)
               else if unlock_free_raises policy then (Raise OSError, w)
                    else (Ok VNone, w)
           | _ => (Raise TypeError, w)
           end.

(** ** BaseIngredient *)

(** An ingredient: the name of its class ([self.__class__.__name__]) and its
    keyword dictionary ([self.keywords]). *)
Record Ingredient : Type := mkIngredient {
  class_name : string;
  keywords : dict
}.

(** [errct > 0], in Python 2's ordering of mixed values. *)
Definition greater_than_zero (v : value) : bool :=
  match v with
  | VNone => false
  | VBool b => b
  | VInt z => (0 <? z)%Z
  | _ => true
  end.

Section BaseIngredient.

Variable oracle : Oracle.
Variable policy : LockPolicy.
Variable self : Ingredient.

(** [self.keywords['program'] == 'vasp'] *)
Definition program_is_vasp : M bool :=
  program <- getitem (keywords self) "program";
  ret (bool_decide (program = VStr "vasp")).

(** [MASTError(self.__class__.__name__, msg)] *)
Definition mast_error {A} (msg : string) : M A :=
  raise (MASTError (class_name self) msg).

Definition write_directory : M value :=
  try_except_OSError
    (name <- getitem (keywords self) "name";
     os_makedirs name ;;;
     ret VNone)
    (py_print "Directory exists." ;;;
     ret VNone).

Definition get_structure_from_file (filepath : value) : M value :=
  vasp <- program_is_vasp;
  if vasp then call_out oracle (checker_get_structure_from_file filepath)
  else mast_error "Program not recognized (in get_structure_from_file)".

Definition forward_parent_structure (parentpath childpath newname : value) : M value :=
  vasp <- program_is_vasp;
  if vasp then
    call_out oracle (checker_forward_parent_structure parentpath childpath newname) ;;;
    ret VNone
  else mast_error "Program not recognized (in forward_parent_structure)".

Definition forward_parent_energy (parentpath childpath newname : value) : M value :=
  vasp <- program_is_vasp;
  if vasp then
    call_out oracle (checker_forward_parent_energy parentpath childpath newname) ;;;
    ret VNone
  else mast_error "Program not recognized (in forward_parent_structure)".

(** ['images' in self.keywords['program_keys'].keys()] *)
Definition has_images : M bool :=
  pk <- getitem (keywords self) "program_keys";
  d <- as_dict pk;
  ret (bool_decide (is_Some (d !! "images"))).

(** [self.keywords['program_keys']['images']] *)
Definition images_count : M value :=
  pk <- getitem (keywords self) "program_keys";
  d <- as_dict pk;
  getitem d "images".

Definition is_complete : M value :=
  vasp <- program_is_vasp;
  if vasp then
    usepath <- getitem (keywords self) "name";
    images <- has_images;
    '(mycomplete, usepath) <-
      (if images then
         name <- getitem (keywords self) "name";
         n <- images_count;
         mycomplete <- call_out oracle (checker_images_complete name n);
         usepath <- add_str usepath "/01";
         ret (mycomplete, usepath)
       else
         mycomplete <- call_out oracle (checker_is_complete usepath);
         ret (mycomplete, usepath));
    done <- truth mycomplete;
    if done then ret mycomplete
    else
      outcar <- add_str usepath "/OUTCAR";
      started <- os_path_exists outcar;
      if negb started then ret (VBool false)
      else
        images <- has_images;
        errct <- (if images
                  then call_out oracle (error_loop_through_errors usepath (Some (VInt 1)))
                  else call_out oracle (error_loop_through_errors usepath None));
        (if greater_than_zero errct then ret tt else ret tt) ;;;
        ret (VBool false)
  else mast_error "Program not recognized (in is_complete)".

Definition directory_is_locked : M value :=
  name <- getitem (keywords self) "name";
  dirutil_directory_is_locked name.

Definition lock_directory : M value :=
  name <- getitem (keywords self) "name";
  dirutil_lock_directory policy name.

Definition unlock_directory : M value :=
  name <- getitem (keywords self) "name";
  dirutil_unlock_directory policy name.

Definition is_ready_to_run : M value :=
  is_locked <- directory_is_locked;
  held <- truth is_locked;
  if held then ret (VBool false)
  else
    vasp <- program_is_vasp;
    if vasp then
      name <- getitem (keywords self) "name";
      call_out oracle (checker_is_ready_to_run name)
    else mast_error "Program not recognized (in is_complete)".

Definition getpath : M value :=
  getitem (keywords self) "name".

Definition write_submit_script : M value :=
  call_out oracle (script_write_submit_script (keywords self)) ;;;
  ret VNone.

(** [mode == 'noqsub'] runs the program directly, [mode == 'serial']
    submits to the queue; each waits for the launched command. *)
Definition run (mode curdir : value) : M value :=
  curdir <- os_getcwd;
  name <- getitem (keywords self) "name";
  os_chdir name ;;;
  (if bool_decide (mode = VStr "noqsub") then
     programpath <- call_out oracle queue_direct_shell_command;
     call_out oracle (subprocess_popen_wait programpath) ;;;
     ret tt
   else if bool_decide (mode = VStr "serial") then
     queuesub <- call_out oracle queue_queue_submission_command;
     call_out oracle (subprocess_popen_wait queuesub) ;;;
     ret tt
   else ret tt) ;;;
  os_chdir curdir ;;;
  ret VNone.

Definition set_up_program_input : M value :=
  vasp <- program_is_vasp;
  if vasp then call_out oracle (checker_set_up_program_input (keywords self))
  else mast_error "Program not recognized (in set_up_program_input)".

Definition get_path_to_write_neb_parent_energy (parent : value) : M value :=
  vasp <- program_is_vasp;
  if vasp then
    name <- getitem (keywords self) "name";
    n <- images_count;
    call_out oracle (checker_get_path_to_write_neb_parent_energy name n parent)
  else mast_error "Program not recognized (in get_path_to_write_neb_parent_energy)".

Definition set_up_program_input_neb (image_structures : value) : M value :=
  vasp <- program_is_vasp;
  if vasp then
    call_out oracle (checker_set_up_program_input_neb (keywords self) image_structures)
  else mast_error "Program not recognized (in set_up_neb)".

Definition get_children : M value :=
  child_dict <- getitem (keywords self) "child_dict";
  nonempty <- truth child_dict;
  if nonempty then dict_copy child_dict
  else ret VNone.

End BaseIngredient.

(** [m] raises the configuration error of [self]'s class, and does nothing
    else. *)
Definition raises_mast_error {A} (self : Ingredient) (m : M A) (w : World) : Prop :=
  exists msg, m w = (Raise (MASTError (class_name self) msg), w).

(** ** What [is_complete] asks of its collaborators

    For an ingredient named [p] whose program keys are the dict [d], the
    completion call, the directory probed for the output artifact, and the
    error-handler call placed by [is_complete]. *)

Definition completion_call (p : string) (d : dict) : call :=
  match d !! "images" with
  | Some n => checker_images_complete (VStr p) n
  | None => checker_is_complete (VStr p)
  end.

Definition probe_path (p : string) (d : dict) : string :=
  match d !! "images" with
  | Some _ => p +:+ "/01"
  | None => p
  end.

Definition error_call (p : string) (d : dict) : call :=
  error_loop_through_errors (VStr (probe_path p d))
    (match d !! "images" with
     | Some _ => Some (VInt 1)
     | None => None
     end).

(** The world after a collaborator call [c] that left the file system [f]. *)
Definition after_call (c : call) (f : FS) (w : World) : World :=
  set_fs f (log (EvCall c) w).

(** What [is_complete] does once the checker has answered [v]: the answer if
    it counts as true; false without a further call if the output artifact is
    not there; else one call of the error handler, whose count is dropped. *)
Definition after_completion (oracle : Oracle) (p : string) (d : dict)
    (v : value) (w1 : World) : result value * World :=
  if truthy (heap w1) v then (Ok v, w1)
  else if negb (path_exists (fs w1)
                  (resolve (cwd w1) (probe_path p d +:+ "/OUTCAR")))
       then (Ok (VBool false), w1)
       else match oracle (error_call p d) (cwd w1) (fs w1) with
            | (Ok _, f2) => (Ok (VBool false), after_call (error_call p d) f2 w1)
            | (Raise e, f2) => (Raise e, after_call (error_call p d) f2 w1)
            end.

(** ** What [run] asks of its collaborators

    The queue command that [run] fetches in a mode, if the mode is one of the
    two it knows. *)
Definition submission_command (mode : value) : option call :=
  if bool_decide (mode = VStr "noqsub") then Some queue_direct_shell_command
  else if bool_decide (mode = VStr "serial") then Some queue_queue_submission_command
  else None.

(** ** Callers of [get_children]

    What a caller can do to the mapping it was handed: set an entry (add or
    replace) or delete one.  A failing step leaves the store as it is and the
    caller goes on. *)

Inductive mutation : Type :=
| SetItem (k : string) (v : value)
| DelItem (k : string).

Definition mutate_step (r : value) (m : mutation) (w : World) : World :=
  match m with
  | SetItem k v => snd (dict_setitem r k v w)
  | DelItem k => snd (dict_delitem r k w)
  end.

Definition mutate (r : value) (ms : list mutation) (w : World) : World :=
  foldl (fun w m => mutate_step r m w) w ms.

(** ** Error messages *)

(** [mentions msg m]: the text [m] occurs in [msg]. *)
Fixpoint mentions (msg m : string) : bool :=
  String.prefix m msg ||
  match msg with
  | String _ rest => mentions rest m
  | EmptyString => false
  end.

(** The message of a raised [MASTError]. *)
Definition mast_message {A} (r : result A) : option string :=
  match r with
  | Raise (MASTError _ msg) => Some msg
  | _ => None
  end.

(** ** The checker's displacement artifact *)

Module VaspChecker.

(** The checker's module [vaspchecker] is known through its tests only.  The
    displacement artifact of a directory is one file of a fixed name in it;
    the store maps the path of each artifact to the payload it holds. *)
Section Displacement.

Variable payload : Type.
Variable displacement_file : string.

Definition artifact_path (dir : string) : string :=
  dir +:+ "/" +:+ displacement_file.

(** Modelled from the spec: [write_my_displacement_file] of module
    [vaspchecker] writes the payload as the displacement artifact of the
    directory, replacing the one that was there. *)
Definition write_my_displacement_file (dir : string) (x : payload)
    (store : gmap string payload) : gmap string payload :=
  <[artifact_path dir := x]> store.

(** Modelled from the spec: [read_my_displacement_file] of module
    [vaspchecker] yields the payload of the displacement artifact of the
    directory, and fails when the directory has none. *)
Definition read_my_displacement_file (dir : string)
    (store : gmap string payload) : option payload :=
  store !! artifact_path dir.

End Displacement.

End VaspChecker.

(** ** Sample ingredients and worlds *)

Module Sample.

(** Every collaborator returns [None] and leaves the files alone. *)
Definition quiet : Oracle := fun _ _ f => (Ok VNone, f).

(** A run that has started and stalled: the checker says "not complete",
    the error handler counts two failure signatures. *)
Definition stalled : Oracle :=
  fun c _ f =>
    match c with
    | checker_is_complete _ => (Ok (VBool false), f)
    | checker_images_complete _ _ => (Ok (VBool false), f)
    | checker_is_ready_to_run _ => (Ok (VBool true), f)
    | error_loop_through_errors _ _ => (Ok (VInt 2), f)
    | _ => (Ok VNone, f)
    end.

(** The queue module fails to produce its command. *)
Definition broken_queue : Oracle :=
  fun c _ f =>
    match c with
    | queue_direct_shell_command => (Raise (ForeignError "queue_commands"), f)
    | queue_queue_submission_command => (Raise (ForeignError "queue_commands"), f)
    | _ => (Ok VNone, f)
    end.

Definition lenient : LockPolicy := mkLockPolicy false false.

Definition disk : FS :=
  mkFS {[ "/work"; "/work/job"; "/work/neb"; "/work/neb/01" ]}
       {[ "/work/job/OUTCAR"; "/work/neb/01/OUTCAR" ]}
       ∅.

(** Object 0: program keys without images; object 1: program keys of a
    three-image job; object 2: one child; object 3: no children. *)
Definition objects : list dict :=
  [ {[ "mast_xc" := VStr "pbe" ]};
    {[ "images" := VInt 3 ]};
    {[ "relax" := VObj 7 ]};
    ∅ ].

Definition world : World := mkWorld "/work" disk objects [].

Definition optimize : Ingredient :=
  mkIngredient "Optimize"
    {[ "name" := VStr "job"; "program" := VStr "vasp";
       "program_keys" := VRef 0; "child_dict" := VRef 2 ]}.

Definition neb : Ingredient :=
  mkIngredient "NEB"
    {[ "name" := VStr "neb"; "program" := VStr "vasp";
       "program_keys" := VRef 1; "child_dict" := VRef 3 ]}.

Definition abinit : Ingredient :=
  mkIngredient "Optimize"
    {[ "name" := VStr "job"; "program" := VStr "abinit";
       "program_keys" := VRef 0; "child_dict" := VRef 3 ]}.

End Sample.

(** ** The short name of an ingredient *)

(** [s.split('/')]: the pieces between the separators; [cur] is the piece
    being read. *)
Fixpoint split_from (cur s : string) : list string :=
  match s with
  | EmptyString => [cur]
  | String c r =>
      if Ascii.eqb c "/"%char then cur :: split_from "" r
      else split_from (cur +:+ String c EmptyString) r
  end.

Definition split_slash (s : string) : list string := split_from "" s.

(** [v.split('/')] *)
Definition str_split_slash (v : value) : M (list string) :=
  match v with
  | VStr s => ret (split_slash s)
  | _ => raise AttributeError
  end.

(** [parts[-1]]; an empty list has no last element ([IndexError]). *)
Definition index_last (parts : list string) : M value :=
  match last parts with
  | Some x => ret (VStr x)
  | None => raise (ForeignError "IndexError")
  end.

(** [self.keywords['name'].split('/')[-1]] *)
Definition get_name (self : Ingredient) : M value :=
  name <- getitem (keywords self) "name";
  parts <- str_split_slash name;
  index_last parts.

(** The [name] and [children] properties. *)
Definition name (self : Ingredient) : M value := get_name self.
Definition children (self : Ingredient) : M value := get_children self.

(** The text has no separator in it. *)
Fixpoint no_slash (s : string) : bool :=
  match s with
  | EmptyString => true
  | String c r => negb (Ascii.eqb c "/"%char) && no_slash r
  end.

(** ** Helpers of the utility package *)

Module Utility.

(** [c.lower()] on one character: the ASCII capitals move to small letters. *)
Definition lower_char (c : ascii) : ascii :=
  let n := nat_of_ascii c in
  if ((65 <=? n) && (n <=? 90))%nat then ascii_of_nat (n + 32) else c.

(** [s.lower()] *)
Fixpoint lower (s : string) : string :=
  match s with
  | EmptyString => EmptyString
  | String c r => String (lower_char c) (lower r)
  end.

(** [pmg.Structure(lattice, species, coords, **kwargs)] is pymatgen's
    constructor: it is taken as given, with the arguments as passed. *)
Definition Constructor : Type :=
  value -> value -> value -> list (string * value) -> result value.

(** [MAST2Structure(lattice, coordinates, atom_list, coord_type)]; a
    coordinate type that is neither of the two falls off the end of the
    function, which returns [None]. *)
Definition MAST2Structure (structure : Constructor)
    (lattice coordinates atom_list coord_type : value) : result value :=
  match coord_type with
  | VStr t =>
      if String.eqb (lower t) "fractional" then
        structure lattice atom_list coordinates []
      else if String.eqb (lower t) "cartesian" then
        structure lattice atom_list coordinates
          [("coords_are_cartesian", VBool true)]
      else Ok VNone
  | _ => Raise AttributeError
  end.

End Utility.

(** ** Methods that only ask *)

(** [m] leaves the state as it is, whatever it returns or raises. *)
Definition pure {A} (m : M A) : Prop := forall w, snd (m w) = w.

(** All that [m] does is call collaborators out of [allowed]: the trace
    grows by those calls and nothing else, the working directory and the
    object store stay, and if no call is made the whole state stays. *)
Definition asks_only {A} (allowed : call -> bool) (m : M A) : Prop :=
  forall w,
    exists calls,
      trace (snd (m w)) = (trace w ++ map EvCall calls)%list /\
      forallb allowed calls = true /\
      cwd (snd (m w)) = cwd w /\
      heap (snd (m w)) = heap w /\
      (calls = [] -> snd (m w) = w).

(** The questions of [is_complete] and of [is_ready_to_run]. *)
Definition completion_query (c : call) : bool :=
  match c with
  | checker_is_complete _ => true
  | checker_images_complete _ _ => true
  | error_loop_through_errors _ _ => true
  | _ => false
  end.

Definition readiness_query (c : call) : bool :=
  match c with
  | checker_is_ready_to_run _ => true
  | _ => false
  end.

(** ** More sample data *)

Module Sample2.

(** The checker says "complete" with the number 1. *)
Definition finished : Oracle :=
  fun c _ f =>
    match c with
    | checker_is_complete _ => (Ok (VInt 1), f)
    | checker_images_complete _ _ => (Ok (VInt 1), f)
    | _ => (Ok VNone, f)
    end.

(** The error handler fails while it scans. *)
Definition broken_handler : Oracle :=
  fun c _ f =>
    match c with
    | checker_is_complete _ => (Ok (VBool false), f)
    | checker_images_complete _ _ => (Ok (VBool false), f)
    | error_loop_through_errors _ _ => (Raise (ForeignError "vasp_error"), f)
    | _ => (Ok VNone, f)
    end.

(** The launched command cannot be started. *)
Definition broken_launch : Oracle :=
  fun c _ f =>
    match c with
    | queue_direct_shell_command => (Ok (VStr "vasp"), f)
    | queue_queue_submission_command => (Ok (VStr "qsub submit.sh"), f)
    | subprocess_popen_wait _ => (Raise OSError, f)
    | _ => (Ok VNone, f)
    end.

(** The launched command removes the directory the process came from. *)
Definition sweeping : Oracle :=
  fun c _ f =>
    match c with
    | queue_direct_shell_command => (Ok (VStr "vasp"), f)
    | queue_queue_submission_command => (Ok (VStr "qsub submit.sh"), f)
    | subprocess_popen_wait _ =>
        (Ok (VInt 0), mkFS (dirs f ∖ {[ "/work" ]}) (files f) (locked f))
    | _ => (Ok VNone, f)
    end.

(** The structure constructor answers with an object that tells the two
    calls apart. *)
Definition structure : Utility.Constructor :=
  fun _ _ _ kwargs =>
    match kwargs with
    | [] => Ok (VObj 1)
    | _ => Ok (VObj 2)
    end.

(** The job directory of [Sample.optimize] carries the lock marker. *)
Definition locked_world : World :=
  mkWorld "/work"
    (mkFS (dirs Sample.disk) (files Sample.disk) {[ "/work/job" ]})
    Sample.objects [].

Definition with_keywords (k : dict) : Ingredient := mkIngredient "Optimize" k.

(** No [program] keyword. *)
Definition unconfigured : Ingredient :=
  with_keywords {[ "name" := VStr "job"; "program_keys" := VRef 0 ]}.

(** No keywords at all. *)
Definition nameless : Ingredient := with_keywords ∅.

(** A ['vasp'] ingredient without program keys. *)
Definition keyless : Ingredient :=
  with_keywords {[ "name" := VStr "job"; "program" := VStr "vasp" ]}.

(** A directory that is not there yet, two levels down. *)
Definition fresh : Ingredient :=
  with_keywords {[ "name" := VStr "new/run1"; "program" := VStr "vasp" ]}.

(** The name runs through a file. *)
Definition through_file : Ingredient :=
  with_keywords {[ "name" := VStr "job/OUTCAR/sub"; "program" := VStr "vasp" ]}.

(** The children keyword is [None]. *)
Definition childless : Ingredient :=
  with_keywords {[ "name" := VStr "job"; "child_dict" := VNone ]}.

End Sample2.

(** * Properties *)

(** ** Stepping through a method *)

Lemma bind_ok {A B} (m : M A) (k : A -> M B) w a w' :
  m w = (Ok a, w') -> bind m k w = k a w'.
Proof. intros H. unfold bind. now rewrite H. Qed.

Lemma bind_raise {A B} (m : M A) (k : A -> M B) w e w' :
  m w = (Raise e, w') -> bind m k w = (Raise e, w').
Proof. intros H. unfold bind. now rewrite H. Qed.

Lemma getitem_ok (d : dict) k v w :
  d !! k = Some v -> getitem d k w = (Ok v, w).
Proof. intros H. unfold getitem. now rewrite H. Qed.

Lemma program_is_vasp_ok self w :
  keywords self !! "program" = Some (VStr "vasp") ->
  program_is_vasp self w = (Ok true, w).
Proof.
  intros H. unfold program_is_vasp.
  rewrite (bind_ok _ _ _ _ _ (getitem_ok _ _ _ w H)).
  reflexivity.
Qed.

Lemma program_is_vasp_other self program w :
  keywords self !! "program" = Some program ->
  program <> VStr "vasp" ->
  program_is_vasp self w = (Ok false, w).
Proof.
  intros H Hne. unfold program_is_vasp.
  rewrite (bind_ok _ _ _ _ _ (getitem_ok _ _ _ w H)).
  unfold ret. now rewrite bool_decide_eq_false_2.
Qed.

Lemma program_is_vasp_world self w :
  snd (program_is_vasp self w) = w.
Proof.
  unfold program_is_vasp, bind, getitem.
  now destruct (keywords self !! "program").
Qed.

(** A method that dispatches on the program raises as soon as the program is
    not the registered one. *)
Lemma dispatch_raises {A} self program (go : M A) msg w :
  keywords self !! "program" = Some program ->
  program <> VStr "vasp" ->
  raises_mast_error self
    (vasp <- program_is_vasp self; if vasp then go else mast_error self msg) w.
Proof.
  intros H Hne. exists msg.
  now rewrite (bind_ok _ _ _ _ _ (program_is_vasp_other _ _ w H Hne)).
Qed.

Lemma directory_is_locked_spec self p w :
  keywords self !! "name" = Some (VStr p) ->
  directory_is_locked self w
  = (Ok (VBool (bool_decide (resolve (cwd w) p ∈ locked (fs w)))), w).
Proof.
  intros H. unfold directory_is_locked.
  now rewrite (bind_ok _ _ _ _ _ (getitem_ok _ _ _ w H)).
Qed.

(** [is_ready_to_run] on a directory that carries the marker. *)
Lemma is_ready_to_run_locked oracle self p w :
  keywords self !! "name" = Some (VStr p) ->
  resolve (cwd w) p ∈ locked (fs w) ->
  is_ready_to_run oracle self w = (Ok (VBool false), w).
Proof.
  intros H Hl. unfold is_ready_to_run.
  rewrite (bind_ok _ _ _ _ _ (directory_is_locked_spec _ _ w H)).
  unfold bind, truth. simpl. now rewrite bool_decide_eq_true_2.
Qed.

(** [is_ready_to_run] on a directory without the marker goes on to the
    dispatch on the program. *)
Lemma is_ready_to_run_free oracle self p w :
  keywords self !! "name" = Some (VStr p) ->
  resolve (cwd w) p ∉ locked (fs w) ->
  is_ready_to_run oracle self w
  = (vasp <- program_is_vasp self;
     if vasp then call_out oracle (checker_is_ready_to_run (VStr p))
     else mast_error self "Program not recognized (in is_complete)") w.
Proof.
  intros H Hl. unfold is_ready_to_run.
  rewrite (bind_ok _ _ _ _ _ (directory_is_locked_spec _ _ w H)).
  unfold truth at 1. unfold bind at 1. simpl.
  rewrite bool_decide_eq_false_2 by done.
  unfold bind.
  pose proof (program_is_vasp_world self w) as Hw.
  destruct (program_is_vasp self w) as [[[] | e] w']; simpl in Hw; subst w';
    try reflexivity.
  now rewrite (getitem_ok _ _ _ w H).
Qed.

(** ** Dispatch on the program *)

(** C1. When the [program] keyword is anything but ['vasp'], every
    program-dependent operation raises [MASTError] with the class name and
    changes nothing: [get_structure_from_file], [forward_parent_structure],
    [forward_parent_energy], [is_complete], [set_up_program_input],
    [set_up_program_input_neb], [get_path_to_write_neb_parent_energy], and
    [is_ready_to_run] when the directory is not locked. *)
Theorem unrecognized_program_raises (oracle : Oracle) (self : Ingredient)
    (program : value) (w : World) :
  keywords self !! "program" = Some program ->
  program <> VStr "vasp" ->
  (forall filepath,
      raises_mast_error self (get_structure_from_file oracle self filepath) w) /\
  (forall parentpath childpath newname,
      raises_mast_error self
        (forward_parent_structure oracle self parentpath childpath newname) w) /\
  (forall parentpath childpath newname,
      raises_mast_error self
        (forward_parent_energy oracle self parentpath childpath newname) w) /\
  raises_mast_error self (is_complete oracle self) w /\
  raises_mast_error self (set_up_program_input oracle self) w /\
  (forall image_structures,
      raises_mast_error self
        (set_up_program_input_neb oracle self image_structures) w) /\
  (forall parent,
      raises_mast_error self
        (get_path_to_write_neb_parent_energy oracle self parent) w) /\
  (forall p,
      keywords self !! "name" = Some (VStr p) ->
      resolve (cwd w) p ∉ locked (fs w) ->
      raises_mast_error self (is_ready_to_run oracle self) w).
Proof.
  intros Hprog Hne.
  repeat split; intros;
    try (eapply dispatch_raises; eassumption).
  unfold raises_mast_error.
  erewrite is_ready_to_run_free by eassumption.
  eapply dispatch_raises; eassumption.
Qed.

Lemma unrecognized_program_raises_witness :
  raises_mast_error Sample.abinit
    (is_complete Sample.quiet Sample.abinit) Sample.world /\
  raises_mast_error Sample.abinit
    (is_ready_to_run Sample.quiet Sample.abinit) Sample.world.
Proof.
  destruct (unrecognized_program_raises Sample.quiet Sample.abinit
              (VStr "abinit") Sample.world)
    as (_ & _ & _ & Hc & _ & _ & _ & Hr).
  - reflexivity.
  - discriminate.
  - split; [exact Hc | apply (Hr "job")].
    + reflexivity.
    + vm_compute. set_solver.
Defined.

(** C6. The message of a dispatch error does not always name the method that
    was invoked: [forward_parent_energy] raises with the text of
    [forward_parent_structure], [is_ready_to_run] with the text of
    [is_complete], and [set_up_program_input_neb] with [set_up_neb]. *)
Theorem dispatch_message_names_other_method :
  mast_message
    (fst (forward_parent_energy Sample.quiet Sample.abinit
            (VStr "parent") (VStr "job") (VStr "OSZICAR") Sample.world))
  = Some "Program not recognized (in forward_parent_structure)" /\
  mentions "Program not recognized (in forward_parent_structure)"
           "forward_parent_energy" = false /\
  mast_message (fst (is_ready_to_run Sample.quiet Sample.abinit Sample.world))
  = Some "Program not recognized (in is_complete)" /\
  mentions "Program not recognized (in is_complete)" "is_ready_to_run" = false /\
  mast_message
    (fst (set_up_program_input_neb Sample.quiet Sample.abinit (VObj 0) Sample.world))
  = Some "Program not recognized (in set_up_neb)" /\
  mentions "Program not recognized (in set_up_neb)" "set_up_program_input_neb" = false.
Proof. repeat split; vm_compute; reflexivity. Qed.

(** ** Running a job *)

Lemma bind_ok_inv {A B} (m : M A) (k : A -> M B) w b w' :
  bind m k w = (Ok b, w') ->
  exists a w1, m w = (Ok a, w1) /\ k a w1 = (Ok b, w').
Proof.
  unfold bind. destruct (m w) as [[a | e] w1]; intros H.
  - now exists a, w1.
  - discriminate.
Qed.

Lemma os_chdir_ok_inv v w u w' :
  os_chdir v w = (Ok u, w') ->
  exists p, v = VStr p /\ resolve (cwd w) p ∈ dirs (fs w) /\
            w' = set_cwd (resolve (cwd w) p) w.
Proof.
  unfold os_chdir. destruct v; try discriminate.
  case_bool_decide; [| discriminate].
  intros [= _ <-]. eauto.
Qed.

Lemma os_chdir_ok p w :
  resolve (cwd w) p ∈ dirs (fs w) ->
  os_chdir (VStr p) w = (Ok tt, set_cwd (resolve (cwd w) p) w).
Proof. intros H. unfold os_chdir. now rewrite bool_decide_eq_true_2. Qed.

Lemma os_chdir_missing p w :
  resolve (cwd w) p ∉ dirs (fs w) ->
  os_chdir (VStr p) w = (Raise OSError, w).
Proof. intros H. unfold os_chdir. now rewrite bool_decide_eq_false_2. Qed.

Lemma resolve_absolute d p : is_absolute p = true -> resolve d p = p.
Proof. intros H. unfold resolve. now rewrite H. Qed.

(** When [run] returns, the process is back where it was. *)
Lemma run_ok_cwd oracle self mode curdir w r w' :
  is_absolute (cwd w) = true ->
  run oracle self mode curdir w = (Ok r, w') ->
  cwd w' = cwd w.
Proof.
  intros Habs H. unfold run in H.
  apply bind_ok_inv in H as (c0 & w1 & [= <- <-] & H).
  apply bind_ok_inv in H as (name & w2 & _ & H).
  apply bind_ok_inv in H as (u3 & w3 & _ & H).
  apply bind_ok_inv in H as (u4 & w4 & _ & H).
  apply bind_ok_inv in H as (u5 & w5 & H5 & [= _ <-]).
  apply os_chdir_ok_inv in H5 as (q & [= <-] & _ & ->).
  simpl. now apply resolve_absolute.
Qed.

(** C10. The [curdir] argument of [run] is dead: it is overwritten with the
    working directory at entry, so two calls that differ only in it have the
    same outcome and leave the same state, and the directory they go back to
    is the one of entry, whatever was passed. *)
Theorem run_ignores_curdir (oracle : Oracle) (self : Ingredient)
    (mode curdir1 curdir2 : value) (w : World) :
  run oracle self mode curdir1 w = run oracle self mode curdir2 w /\
  (is_absolute (cwd w) = true ->
   forall r1 w1 r2 w2,
     run oracle self mode curdir1 w = (Ok r1, w1) ->
     run oracle self mode curdir2 w = (Ok r2, w2) ->
     cwd w1 = cwd w /\ cwd w2 = cwd w).
Proof.
  split; [reflexivity |].
  intros Habs r1 w1 r2 w2 H1 H2. split.
  - exact (run_ok_cwd _ _ _ _ _ _ _ Habs H1).
  - exact (run_ok_cwd _ _ _ _ _ _ _ Habs H2).
Qed.

Lemma os_getcwd_spec w : os_getcwd w = (Ok (VStr (cwd w)), w).
Proof. reflexivity. Qed.

Lemma ret_spec {A} (a : A) w : ret a w = (Ok a, w).
Proof. reflexivity. Qed.

Lemma call_out_spec oracle c w r f :
  oracle c (cwd w) (fs w) = (r, f) ->
  call_out oracle c w = (r, after_call c f w).
Proof. intros H. unfold call_out. now rewrite H. Qed.

(** C5 (amended). [run] puts the working directory back whenever it returns,
    and it returns whenever the job directory can be entered, the submission
    step does not raise (the exit status is not looked at) and the directory
    of entry is still there afterwards.  When the job directory cannot be
    entered, nothing has changed. *)
Theorem run_restores_cwd (oracle : Oracle) (self : Ingredient)
    (mode curdir : value) (w : World) :
  is_absolute (cwd w) = true ->
  (forall r w', run oracle self mode curdir w = (Ok r, w') -> cwd w' = cwd w) /\
  (forall p,
      keywords self !! "name" = Some (VStr p) ->
      resolve (cwd w) p ∉ dirs (fs w) ->
      run oracle self mode curdir w = (Raise OSError, w)) /\
  (forall p c cmd f1 status f2,
      keywords self !! "name" = Some (VStr p) ->
      resolve (cwd w) p ∈ dirs (fs w) ->
      submission_command mode = Some c ->
      oracle c (resolve (cwd w) p) (fs w) = (Ok cmd, f1) ->
      oracle (subprocess_popen_wait cmd) (resolve (cwd w) p) f1 = (Ok status, f2) ->
      cwd w ∈ dirs f2 ->
      exists w',
        run oracle self mode curdir w = (Ok VNone, w') /\
        cwd w' = cwd w /\ fs w' = f2 /\
        trace w' = (trace w ++ [EvCall c; EvCall (subprocess_popen_wait cmd)])%list) /\
  (forall p,
      keywords self !! "name" = Some (VStr p) ->
      resolve (cwd w) p ∈ dirs (fs w) ->
      submission_command mode = None ->
      cwd w ∈ dirs (fs w) ->
      run oracle self mode curdir w = (Ok VNone, w)).
Proof.
  intros Habs. repeat apply conj.
  - intros r w' H. exact (run_ok_cwd _ _ _ _ _ _ _ Habs H).
  - intros p Hn Hd. unfold run.
    rewrite (bind_ok _ _ _ _ _ (os_getcwd_spec w)).
    rewrite (bind_ok _ _ _ _ _ (getitem_ok _ _ _ _ Hn)).
    now rewrite (bind_raise _ _ _ _ _ (os_chdir_missing _ _ Hd)).
  - intros p c cmd f1 status f2 Hn Hd Hc Ho1 Ho2 Hback. unfold run.
    rewrite (bind_ok _ _ _ _ _ (os_getcwd_spec w)).
    rewrite (bind_ok _ _ _ _ _ (getitem_ok _ _ _ _ Hn)).
    rewrite (bind_ok _ _ _ _ _ (os_chdir_ok _ _ Hd)).
    set (w1 := set_cwd (resolve (cwd w) p) w).
    assert (Hsub :
      (if bool_decide (mode = VStr "noqsub")
       then programpath <- call_out oracle queue_direct_shell_command;
            call_out oracle (subprocess_popen_wait programpath) ;;; ret tt
       else if bool_decide (mode = VStr "serial")
            then queuesub <- call_out oracle queue_queue_submission_command;
                 call_out oracle (subprocess_popen_wait queuesub) ;;; ret tt
            else ret tt) w1
      = (Ok tt, after_call (subprocess_popen_wait cmd) f2 (after_call c f1 w1))).
    { unfold submission_command in Hc.
      repeat case_bool_decide; try discriminate; injection Hc as <-;
        rewrite (bind_ok _ _ _ _ _ (call_out_spec oracle _ w1 _ _ Ho1));
        now rewrite (bind_ok _ _ _ _ _
                       (call_out_spec oracle _ (after_call _ f1 w1) _ _ Ho2)). }
    rewrite (bind_ok _ _ _ _ _ Hsub).
    assert (Hin : resolve (resolve (cwd w) p) (cwd w) ∈ dirs f2)
      by now rewrite resolve_absolute.
    rewrite (bind_ok _ _ _ _ _
               (os_chdir_ok (cwd w)
                  (after_call (subprocess_popen_wait cmd) f2 (after_call c f1 w1)) Hin)).
    eexists. split; [reflexivity |]. simpl.
    rewrite resolve_absolute by done. repeat split.
    now rewrite <- app_assoc.
  - intros p Hn Hd Hc Hback. unfold run.
    rewrite (bind_ok _ _ _ _ _ (os_getcwd_spec w)).
    rewrite (bind_ok _ _ _ _ _ (getitem_ok _ _ _ _ Hn)).
    rewrite (bind_ok _ _ _ _ _ (os_chdir_ok _ _ Hd)).
    unfold submission_command in Hc.
    repeat case_bool_decide; try discriminate.
    rewrite (bind_ok _ _ _ _ _ (ret_spec tt _)).
    assert (Hin : resolve (resolve (cwd w) p) (cwd w) ∈ dirs (fs w))
      by now rewrite resolve_absolute.
    rewrite (bind_ok _ _ _ _ _
               (os_chdir_ok (cwd w) (set_cwd (resolve (cwd w) p) w) Hin)).
    unfold ret, set_cwd. simpl. rewrite resolve_absolute by done.
    now destruct w.
Qed.

Lemma run_restores_cwd_witness :
  cwd (snd (run Sample.stalled Sample.optimize (VStr "noqsub") VNone Sample.world))
  = "/work".
Proof.
  destruct (run_restores_cwd Sample.stalled Sample.optimize (VStr "noqsub")
              VNone Sample.world eq_refl) as (H & _).
  apply (H VNone). vm_compute. reflexivity.
Defined.

(** C5, as stated, fails: when the queue module raises while the command is
    fetched, [run] propagates the exception and the process stays in the job
    directory. *)
Lemma run_leaves_job_directory_on_raise :
  fst (run Sample.broken_queue Sample.optimize (VStr "noqsub") VNone Sample.world)
  = Raise (ForeignError "queue_commands") /\
  cwd (snd (run Sample.broken_queue Sample.optimize (VStr "noqsub") VNone
              Sample.world))
  <> cwd Sample.world.
Proof. split; [vm_compute; reflexivity | vm_compute; discriminate]. Qed.

(** ** The directory lock *)

Lemma lock_directory_world policy self p w :
  keywords self !! "name" = Some (VStr p) ->
  let wl := snd (lock_directory policy self w) in
  cwd wl = cwd w /\ heap wl = heap w /\ trace wl = trace w /\
  dirs (fs wl) = dirs (fs w) /\ files (fs wl) = files (fs w) /\
  resolve (cwd w) p ∈ locked (fs wl).
Proof.
  intros Hn. unfold lock_directory.
  rewrite (bind_ok _ _ _ _ _ (getitem_ok _ _ _ w Hn)).
  unfold dirutil_lock_directory.
  case_bool_decide as Hl.
  - destruct (relock_raises policy); simpl; auto 10.
  - simpl. repeat split. set_solver.
Qed.

Lemma unlock_directory_world policy self p w :
  keywords self !! "name" = Some (VStr p) ->
  let wu := snd (unlock_directory policy self w) in
  cwd wu = cwd w /\ heap wu = heap w /\ trace wu = trace w /\
  dirs (fs wu) = dirs (fs w) /\ files (fs wu) = files (fs w) /\
  resolve (cwd w) p ∉ locked (fs wu).
Proof.
  intros Hn. unfold unlock_directory.
  rewrite (bind_ok _ _ _ _ _ (getitem_ok _ _ _ w Hn)).
  unfold dirutil_unlock_directory.
  case_bool_decide as Hl.
  - simpl. repeat split.
    apply not_elem_of_difference. right. now apply elem_of_singleton.
  - destruct (unlock_free_raises policy); simpl; auto 10.
Qed.

(** C2. After [lock_directory] (from any state of the artifacts, which it
    leaves as they are) [directory_is_locked] answers true and
    [is_ready_to_run] answers false without a call to the checker.  After
    [unlock_directory] the lock predicate answers false and
    [is_ready_to_run] is the checker's readiness predicate: for a ['vasp']
    ingredient it is that call, and whatever value it returns is the value
    the checker returned. *)
Theorem lock_discipline (oracle : Oracle) (policy : LockPolicy)
    (self : Ingredient) (p : string) (w : World) :
  keywords self !! "name" = Some (VStr p) ->
  let wl := snd (lock_directory policy self w) in
  let wu := snd (unlock_directory policy self w) in
  (dirs (fs wl) = dirs (fs w) /\ files (fs wl) = files (fs w)) /\
  directory_is_locked self wl = (Ok (VBool true), wl) /\
  is_ready_to_run oracle self wl = (Ok (VBool false), wl) /\
  (dirs (fs wu) = dirs (fs w) /\ files (fs wu) = files (fs w)) /\
  directory_is_locked self wu = (Ok (VBool false), wu) /\
  (keywords self !! "program" = Some (VStr "vasp") ->
   is_ready_to_run oracle self wu
   = call_out oracle (checker_is_ready_to_run (VStr p)) wu) /\
  (forall b w',
      is_ready_to_run oracle self wu = (Ok b, w') ->
      call_out oracle (checker_is_ready_to_run (VStr p)) wu = (Ok b, w')).
Proof.
  intros Hn wl wu.
  destruct (lock_directory_world policy self p w Hn)
    as (Hcl & _ & _ & Hdl & Hfl & Hl).
  destruct (unlock_directory_world policy self p w Hn)
    as (Hcu & _ & _ & Hdu & Hfu & Hu).
  fold wl in Hcl, Hdl, Hfl, Hl. fold wu in Hcu, Hdu, Hfu, Hu.
  rewrite <- Hcl in Hl. rewrite <- Hcu in Hu.
  repeat apply conj; try assumption.
  - rewrite (directory_is_locked_spec _ _ _ Hn).
    now rewrite bool_decide_eq_true_2.
  - now apply (is_ready_to_run_locked oracle self p).
  - rewrite (directory_is_locked_spec _ _ _ Hn).
    now rewrite bool_decide_eq_false_2.
  - intros Hv. rewrite (is_ready_to_run_free oracle self p wu Hn Hu).
    now rewrite (bind_ok _ _ _ _ _ (program_is_vasp_ok _ wu Hv)).
  - intros b w'. rewrite (is_ready_to_run_free oracle self p wu Hn Hu).
    intros H. apply bind_ok_inv in H as (vasp & w1 & H1 & H).
    pose proof (program_is_vasp_world self wu) as Hw.
    rewrite H1 in Hw. simpl in Hw. subst w1.
    destruct vasp; [exact H | discriminate].
Qed.

Lemma lock_discipline_witness :
  fst (is_ready_to_run Sample.stalled Sample.optimize
         (snd (lock_directory Sample.lenient Sample.optimize Sample.world)))
  = Ok (VBool false) /\
  fst (is_ready_to_run Sample.stalled Sample.optimize
         (snd (unlock_directory Sample.lenient Sample.optimize
                 (snd (lock_directory Sample.lenient Sample.optimize Sample.world)))))
  = Ok (VBool true).
Proof.
  split.
  - destruct (lock_discipline Sample.stalled Sample.lenient Sample.optimize
                "job" Sample.world eq_refl) as (_ & _ & H & _).
    now rewrite H.
  - destruct (lock_discipline Sample.stalled Sample.lenient Sample.optimize "job"
                (snd (lock_directory Sample.lenient Sample.optimize Sample.world))
                eq_refl) as (_ & _ & _ & _ & _ & H & _).
    rewrite (H eq_refl). vm_compute. reflexivity.
Defined.

(** ** Completion *)

Lemma has_images_spec self l (d : dict) w :
  keywords self !! "program_keys" = Some (VRef l) ->
  heap w !! l = Some d ->
  has_images self w = (Ok (bool_decide (is_Some (d !! "images"))), w).
Proof.
  intros Hpk Hh. unfold has_images.
  rewrite (bind_ok _ _ _ _ _ (getitem_ok _ _ _ w Hpk)).
  unfold bind, as_dict. now rewrite Hh.
Qed.

Lemma images_count_spec self l (d : dict) n w :
  keywords self !! "program_keys" = Some (VRef l) ->
  heap w !! l = Some d ->
  d !! "images" = Some n ->
  images_count self w = (Ok n, w).
Proof.
  intros Hpk Hh Hn. unfold images_count.
  rewrite (bind_ok _ _ _ _ _ (getitem_ok _ _ _ w Hpk)).
  unfold bind, as_dict. rewrite Hh. now apply getitem_ok.
Qed.

Lemma is_complete_vasp oracle self p l (d : dict) w v f1 :
  keywords self !! "program" = Some (VStr "vasp") ->
  keywords self !! "name" = Some (VStr p) ->
  keywords self !! "program_keys" = Some (VRef l) ->
  heap w !! l = Some d ->
  oracle (completion_call p d) (cwd w) (fs w) = (Ok v, f1) ->
  is_complete oracle self w
  = after_completion oracle p d v (after_call (completion_call p d) f1 w).
Proof.
  intros Hv Hn Hpk Hh Ho. unfold is_complete.
  rewrite (bind_ok _ _ _ _ _ (program_is_vasp_ok _ w Hv)).
  rewrite (bind_ok _ _ _ _ _ (getitem_ok _ _ _ w Hn)).
  rewrite (bind_ok _ _ _ _ _ (has_images_spec _ _ _ w Hpk Hh)).
  unfold after_completion, error_call, completion_call, probe_path in *.
  destruct (d !! "images") as [n |] eqn:Hi.
  - rewrite bool_decide_eq_true_2 by eauto.
    set (w1 := after_call (checker_images_complete (VStr p) n) f1 w).
    assert (Hfirst :
      (name <- getitem (keywords self) "name";
       n0 <- images_count self;
       mycomplete <- call_out oracle (checker_images_complete name n0);
       usepath <- add_str (VStr p) "/01";
       ret (mycomplete, usepath)) w
      = (Ok (v, VStr (p +:+ "/01")), w1)).
    { rewrite (bind_ok _ _ _ _ _ (getitem_ok _ _ _ w Hn)).
      rewrite (bind_ok _ _ _ _ _ (images_count_spec _ _ _ _ w Hpk Hh Hi)).
      now rewrite (bind_ok _ _ _ _ _ (call_out_spec oracle _ w _ _ Ho)). }
    rewrite (bind_ok _ _ _ _ _ Hfirst).
    unfold truth at 1. unfold bind at 1.
    destruct (truthy (heap w1) v); [reflexivity |].
    unfold bind at 1. simpl add_str. unfold ret at 1.
    unfold bind at 1. simpl os_path_exists.
    change (fs w1) with f1. change (cwd w1) with (cwd w).
    destruct (path_exists f1 (resolve (cwd w) ((p +:+ "/01") +:+ "/OUTCAR")));
      [| reflexivity].
    change (negb true) with false. cbv iota.
    assert (Hh1 : heap w1 !! l = Some d) by exact Hh.
    rewrite (bind_ok _ _ _ _ _ (has_images_spec _ _ _ w1 Hpk Hh1)).
    rewrite Hi. rewrite bool_decide_eq_true_2 by eauto.
    unfold bind, call_out.
    change (fs w1) with f1. change (cwd w1) with (cwd w).
    destruct (oracle _ (cwd w) f1) as [[errct | e] f2]; [| reflexivity].
    now destruct (greater_than_zero errct).
  - rewrite bool_decide_eq_false_2 by (intros [? ?]; discriminate).
    set (w1 := after_call (checker_is_complete (VStr p)) f1 w).
    assert (Hfirst :
      (mycomplete <- call_out oracle (checker_is_complete (VStr p));
       ret (mycomplete, VStr p)) w
      = (Ok (v, VStr p), w1)).
    { now rewrite (bind_ok _ _ _ _ _ (call_out_spec oracle _ w _ _ Ho)). }
    rewrite (bind_ok _ _ _ _ _ Hfirst).
    unfold truth at 1. unfold bind at 1.
    destruct (truthy (heap w1) v); [reflexivity |].
    unfold bind at 1. simpl add_str. unfold ret at 1.
    unfold bind at 1. simpl os_path_exists.
    change (fs w1) with f1. change (cwd w1) with (cwd w).
    destruct (path_exists f1 (resolve (cwd w) (p +:+ "/OUTCAR")));
      [| reflexivity].
    change (negb true) with false. cbv iota.
    assert (Hh1 : heap w1 !! l = Some d) by exact Hh.
    rewrite (bind_ok _ _ _ _ _ (has_images_spec _ _ _ w1 Hpk Hh1)).
    rewrite Hi. rewrite bool_decide_eq_false_2 by (intros [? ?]; discriminate).
    unfold bind, call_out.
    change (fs w1) with f1. change (cwd w1) with (cwd w).
    destruct (oracle _ (cwd w) f1) as [[errct | e] f2]; [| reflexivity].
    now destruct (greater_than_zero errct).
Qed.

Lemma is_complete_vasp_raise oracle self p l (d : dict) w e f1 :
  keywords self !! "program" = Some (VStr "vasp") ->
  keywords self !! "name" = Some (VStr p) ->
  keywords self !! "program_keys" = Some (VRef l) ->
  heap w !! l = Some d ->
  oracle (completion_call p d) (cwd w) (fs w) = (Raise e, f1) ->
  is_complete oracle self w = (Raise e, after_call (completion_call p d) f1 w).
Proof.
  intros Hv Hn Hpk Hh Ho. unfold is_complete.
  rewrite (bind_ok _ _ _ _ _ (program_is_vasp_ok _ w Hv)).
  rewrite (bind_ok _ _ _ _ _ (getitem_ok _ _ _ w Hn)).
  rewrite (bind_ok _ _ _ _ _ (has_images_spec _ _ _ w Hpk Hh)).
  unfold completion_call in *.
  destruct (d !! "images") as [n |] eqn:Hi.
  - rewrite bool_decide_eq_true_2 by eauto.
    apply bind_raise.
    rewrite (bind_ok _ _ _ _ _ (getitem_ok _ _ _ w Hn)).
    rewrite (bind_ok _ _ _ _ _ (images_count_spec _ _ _ _ w Hpk Hh Hi)).
    apply bind_raise. now apply call_out_spec.
  - rewrite bool_decide_eq_false_2 by (intros [? ?]; discriminate).
    apply bind_raise. apply bind_raise. now apply call_out_spec.
Qed.

(** C3. A ['vasp'] ingredient whose checker reports the run incomplete: if
    the output artifact [OUTCAR] is not there, [is_complete] returns false
    right after the checker's call, with no call to the error handler; if it
    is there, the error handler is called once and, whatever count it
    returns, [is_complete] returns false and adds nothing to what that call
    left: no further call, no change of the files. *)
Theorem incomplete_run_reports_false (oracle : Oracle) (self : Ingredient)
    (p : string) (l : loc) (d : dict) (w : World) (v : value) (f1 : FS) :
  keywords self !! "program" = Some (VStr "vasp") ->
  keywords self !! "name" = Some (VStr p) ->
  keywords self !! "program_keys" = Some (VRef l) ->
  heap w !! l = Some d ->
  oracle (completion_call p d) (cwd w) (fs w) = (Ok v, f1) ->
  truthy (heap w) v = false ->
  let w1 := after_call (completion_call p d) f1 w in
  let outcar := resolve (cwd w) (probe_path p d +:+ "/OUTCAR") in
  (path_exists f1 outcar = false ->
   is_complete oracle self w = (Ok (VBool false), w1)) /\
  (path_exists f1 outcar = true ->
   forall errct f2,
     oracle (error_call p d) (cwd w) f1 = (Ok errct, f2) ->
     is_complete oracle self w
     = (Ok (VBool false), after_call (error_call p d) f2 w1)).
Proof.
  intros Hv Hn Hpk Hh Ho Hfalse w1 outcar.
  rewrite (is_complete_vasp oracle self p l d w v f1 Hv Hn Hpk Hh Ho).
  fold w1. unfold after_completion.
  change (heap w1) with (heap w). change (fs w1) with f1.
  change (cwd w1) with (cwd w). fold outcar.
  rewrite Hfalse. split.
  - intros ->. reflexivity.
  - intros -> errct f2 ->. reflexivity.
Qed.

Lemma incomplete_run_reports_false_witness :
  is_complete Sample.stalled Sample.optimize Sample.world
  = (Ok (VBool false),
     after_call (error_loop_through_errors (VStr "job") None) Sample.disk
       (after_call (checker_is_complete (VStr "job")) Sample.disk Sample.world)).
Proof.
  destruct (incomplete_run_reports_false Sample.stalled Sample.optimize "job" 0
              {[ "mast_xc" := VStr "pbe" ]} Sample.world (VBool false) Sample.disk
              eq_refl eq_refl eq_refl eq_refl eq_refl eq_refl) as (_ & H).
  apply (H eq_refl (VInt 2) Sample.disk eq_refl).
Defined.

(** C4. A ['vasp'] ingredient whose program keys hold an image count [n]:
    [is_complete] asks the checker's [images_complete] about the directory
    and [n]; a true answer is returned as it is; on a false answer the
    output artifact is looked for in the image sub-directory [01], and the
    error handler is called on that sub-directory, restricted to one image.
    A value that counts as true is only ever returned when it is the answer
    of [images_complete]. *)
Theorem images_completion (oracle : Oracle) (self : Ingredient)
    (p : string) (l : loc) (d : dict) (n : value) (w : World) :
  keywords self !! "program" = Some (VStr "vasp") ->
  keywords self !! "name" = Some (VStr p) ->
  keywords self !! "program_keys" = Some (VRef l) ->
  heap w !! l = Some d ->
  d !! "images" = Some n ->
  let check := checker_images_complete (VStr p) n in
  let scan := error_loop_through_errors (VStr (p +:+ "/01")) (Some (VInt 1)) in
  let outcar := resolve (cwd w) ((p +:+ "/01") +:+ "/OUTCAR") in
  (forall v f1,
      oracle check (cwd w) (fs w) = (Ok v, f1) ->
      let w1 := after_call check f1 w in
      (truthy (heap w) v = true -> is_complete oracle self w = (Ok v, w1)) /\
      (truthy (heap w) v = false ->
       path_exists f1 outcar = false ->
       is_complete oracle self w = (Ok (VBool false), w1)) /\
      (truthy (heap w) v = false ->
       path_exists f1 outcar = true ->
       forall errct f2,
         oracle scan (cwd w) f1 = (Ok errct, f2) ->
         is_complete oracle self w = (Ok (VBool false), after_call scan f2 w1))) /\
  (forall r w',
      is_complete oracle self w = (Ok r, w') ->
      truthy (heap w') r = true ->
      exists f1,
        oracle check (cwd w) (fs w) = (Ok r, f1) /\ truthy (heap w) r = true).
Proof.
  intros Hv Hn Hpk Hh Hi check scan outcar.
  assert (Hcheck : completion_call p d = check)
    by (unfold completion_call; now rewrite Hi).
  assert (Hprobe : probe_path p d = p +:+ "/01")
    by (unfold probe_path; now rewrite Hi).
  assert (Hscan : error_call p d = scan)
    by (unfold error_call; now rewrite Hprobe, Hi).
  split.
  - intros v f1 Ho w1.
    rewrite <- Hcheck in Ho.
    rewrite (is_complete_vasp oracle self p l d w v f1 Hv Hn Hpk Hh Ho).
    rewrite Hcheck. fold w1. unfold after_completion.
    rewrite Hprobe, Hscan.
    change (heap w1) with (heap w). change (fs w1) with f1.
    change (cwd w1) with (cwd w). fold outcar.
    repeat split.
    + intros ->. reflexivity.
    + intros -> ->. reflexivity.
    + intros -> -> errct f2 ->. reflexivity.
  - intros r w' Hrun Htrue.
    destruct (oracle check (cwd w) (fs w)) as [[v | e] f1] eqn:Ho;
      rewrite <- Hcheck in Ho.
    + rewrite (is_complete_vasp oracle self p l d w v f1 Hv Hn Hpk Hh Ho) in Hrun.
      unfold after_completion in Hrun.
      change (heap (after_call (completion_call p d) f1 w)) with (heap w) in Hrun.
      destruct (truthy (heap w) v) eqn:Hv'.
      * injection Hrun as <- <-. eauto.
      * destruct (negb _) in Hrun.
        { injection Hrun as <- <-. discriminate. }
        destruct (oracle (error_call p d) _ _) as [[errct | e] f2];
          [injection Hrun as <- <- | ]; discriminate.
    + rewrite (is_complete_vasp_raise oracle self p l d w e f1 Hv Hn Hpk Hh Ho)
        in Hrun.
      discriminate.
Qed.

Lemma images_completion_witness :
  is_complete Sample.stalled Sample.neb Sample.world
  = (Ok (VBool false),
     after_call (error_loop_through_errors (VStr "neb/01") (Some (VInt 1)))
       Sample.disk
       (after_call (checker_images_complete (VStr "neb") (VInt 3)) Sample.disk
          Sample.world)).
Proof.
  destruct (images_completion Sample.stalled Sample.neb "neb" 1
              {[ "images" := VInt 3 ]} (VInt 3) Sample.world
              eq_refl eq_refl eq_refl eq_refl eq_refl) as (H & _).
  destruct (H (VBool false) Sample.disk eq_refl) as (_ & _ & H3).
  apply (H3 eq_refl eq_refl (VInt 2) Sample.disk eq_refl).
Defined.

(** ** Creating the directory *)

Lemma write_directory_spec self p w :
  keywords self !! "name" = Some (VStr p) ->
  let t := resolve (cwd w) p in
  write_directory self w
  = if path_exists (fs w) t || blocked (fs w) t
    then (Ok VNone, log (EvPrint "Directory exists.") w)
    else (Ok VNone,
          set_fs (mkFS (dirs (fs w) ∪ list_to_set (ancestors t) ∪ {[t]})
                       (files (fs w)) (locked (fs w))) w).
Proof.
  intros Hn t. unfold write_directory, try_except_OSError.
  rewrite (bind_ok _ _ _ _ _ (getitem_ok _ _ _ w Hn)).
  unfold bind at 1. unfold os_makedirs. fold t.
  destruct (path_exists (fs w) t); [reflexivity |].
  destruct (blocked (fs w) t); reflexivity.
Qed.

(** C8. [write_directory] on a directory that exists returns normally; all
    it does is report it.  Two calls in a row never raise, and where the
    directory was there or could be made, it is there after both. *)
Theorem write_directory_idempotent (self : Ingredient) (p : string) (w : World) :
  keywords self !! "name" = Some (VStr p) ->
  let t := resolve (cwd w) p in
  (t ∈ dirs (fs w) ->
   write_directory self w = (Ok VNone, log (EvPrint "Directory exists.") w)) /\
  (exists w1 w2,
      write_directory self w = (Ok VNone, w1) /\
      write_directory self w1 = (Ok VNone, w2) /\
      (t ∈ dirs (fs w) \/
       (path_exists (fs w) t = false /\ blocked (fs w) t = false) ->
       t ∈ dirs (fs w1) /\ t ∈ dirs (fs w2) /\
       w2 = log (EvPrint "Directory exists.") w1)).
Proof.
  intros Hn t.
  assert (Hexists : forall w0,
             resolve (cwd w0) p ∈ dirs (fs w0) ->
             write_directory self w0
             = (Ok VNone, log (EvPrint "Directory exists.") w0)).
  { intros w0 Hin. rewrite (write_directory_spec self p w0 Hn).
    unfold path_exists. now rewrite bool_decide_eq_true_2. }
  split; [apply Hexists |].
  pose proof (write_directory_spec self p w Hn) as H1.
  cbv zeta in H1. fold t in H1.
  destruct (path_exists (fs w) t || blocked (fs w) t) eqn:Hb.
  - set (w1 := log (EvPrint "Directory exists.") w) in *.
    pose proof (write_directory_spec self p w1 Hn) as H2. cbv zeta in H2.
    change (resolve (cwd w1) p) with t in H2. change (fs w1) with (fs w) in H2.
    rewrite Hb in H2.
    exists w1, (log (EvPrint "Directory exists.") w1).
    repeat split; try assumption.
    all: destruct H as [Hin | [Hp Hk]];
      [exact Hin | rewrite Hp, Hk in Hb; discriminate].
  - set (w1 := set_fs (mkFS (dirs (fs w) ∪ list_to_set (ancestors t) ∪ {[t]})
                            (files (fs w)) (locked (fs w))) w) in *.
    assert (Hin : resolve (cwd w1) p ∈ dirs (fs w1)).
    { change (resolve (cwd w1) p) with t. simpl. set_solver. }
    exists w1, (log (EvPrint "Directory exists.") w1).
    split; [exact H1 |]. split; [now apply Hexists |].
    intros _. repeat split; exact Hin.
Qed.

Lemma write_directory_idempotent_witness :
  write_directory Sample.optimize Sample.world
  = (Ok VNone, log (EvPrint "Directory exists.") Sample.world).
Proof.
  destruct (write_directory_idempotent Sample.optimize "job" Sample.world eq_refl)
    as (H & _).
  apply H. vm_compute. set_solver.
Defined.

(** ** Children *)

Lemma mutate_step_other l' l m w :
  l' <> l ->
  heap (mutate_step (VRef l') m w) !! l = heap w !! l.
Proof.
  intros Hne. destruct m as [k v | k]; simpl.
  - destruct (heap w !! l'); simpl; [| reflexivity].
    now apply list_lookup_insert_ne.
  - destruct (heap w !! l') as [d |]; simpl; [| reflexivity].
    destruct (d !! k); simpl; [| reflexivity].
    now apply list_lookup_insert_ne.
Qed.

Lemma mutate_other l' l ms w :
  l' <> l ->
  heap (mutate (VRef l') ms w) !! l = heap w !! l.
Proof.
  intros Hne. revert w. induction ms as [| m ms IH]; intros w.
  - reflexivity.
  - change (mutate (VRef l') (m :: ms) w)
      with (mutate (VRef l') ms (mutate_step (VRef l') m w)).
    rewrite IH. now apply mutate_step_other.
Qed.

Lemma get_children_spec self l (d : dict) w :
  keywords self !! "child_dict" = Some (VRef l) ->
  heap w !! l = Some d ->
  get_children self w
  = if bool_decide (d = ∅) then (Ok VNone, w)
    else (Ok (VRef (length (heap w))), set_heap (heap w ++ [d]) w).
Proof.
  intros Hc Hh. unfold get_children.
  rewrite (bind_ok _ _ _ _ _ (getitem_ok _ _ _ w Hc)).
  unfold truth at 1. unfold bind at 1. unfold truthy. rewrite Hh.
  case_bool_decide; [reflexivity |]. simpl.
  unfold dict_copy, bind, as_dict, alloc. now rewrite Hh.
Qed.

(** C9. [get_children] returns [None] when the child mapping is empty.
    Otherwise it returns a reference to a new dict object with the same
    entries; setting and deleting entries through that reference changes
    the new object and leaves the ingredient's own child mapping as it
    was. *)
Theorem get_children_copy (self : Ingredient) (l : loc) (d : dict) (w : World) :
  keywords self !! "child_dict" = Some (VRef l) ->
  heap w !! l = Some d ->
  (d = ∅ -> get_children self w = (Ok VNone, w)) /\
  (d <> ∅ ->
   let copy := length (heap w) in
   let w1 := set_heap (heap w ++ [d]) w in
   get_children self w = (Ok (VRef copy), w1) /\
   copy <> l /\
   heap w1 !! copy = Some d /\
   (forall k v,
       heap (mutate (VRef copy) [SetItem k v] w1) !! copy = Some (<[k := v]> d)) /\
   (forall ms, heap (mutate (VRef copy) ms w1) !! l = Some d)).
Proof.
  intros Hc Hh.
  rewrite (get_children_spec self l d w Hc Hh).
  assert (Hlt : l < length (heap w)) by (eapply lookup_lt_Some; eassumption).
  split.
  - intros ->. now rewrite bool_decide_eq_true_2.
  - intros Hne copy w1. rewrite bool_decide_eq_false_2 by done.
    assert (Hcopy : heap w1 !! copy = Some d).
    { unfold w1, copy. simpl. rewrite lookup_app_r by lia.
      now rewrite Nat.sub_diag. }
    assert (Hdiff : copy <> l) by (unfold copy; lia).
    repeat split.
    + exact Hdiff.
    + exact Hcopy.
    + intros k v. unfold mutate. cbn [foldl mutate_step].
      unfold dict_setitem. rewrite Hcopy. cbn [snd set_heap heap].
      apply list_lookup_insert_eq. eapply lookup_lt_Some. exact Hcopy.
    + intros ms. rewrite (mutate_other copy l ms w1 Hdiff).
      unfold w1. simpl. now rewrite lookup_app_l.
Qed.

Lemma get_children_copy_witness :
  fst (get_children Sample.optimize Sample.world) = Ok (VRef 4) /\
  heap (mutate (VRef 4) [SetItem "static" (VObj 8); DelItem "relax"]
          (snd (get_children Sample.optimize Sample.world))) !! 2
  = Some {[ "relax" := VObj 7 ]}.
Proof.
  destruct (get_children_copy Sample.optimize 2 {[ "relax" := VObj 7 ]}
              Sample.world eq_refl eq_refl) as (_ & H).
  destruct H as (Hrun & _ & _ & _ & Hframe).
  - vm_compute. discriminate.
  - rewrite Hrun. split; [reflexivity |]. apply Hframe.
Defined.

(** ** The displacement artifact *)

(** C7. Reading the displacement artifact of a directory right after a
    payload was written to that directory yields the payload. *)
Theorem displacement_round_trip (payload : Type) (displacement_file : string)
    (dir : string) (x : payload) (store : gmap string payload) :
  VaspChecker.read_my_displacement_file payload displacement_file dir
    (VaspChecker.write_my_displacement_file payload displacement_file dir x store)
  = Some x.
Proof.
  unfold VaspChecker.read_my_displacement_file,
    VaspChecker.write_my_displacement_file.
  apply lookup_insert_eq.
Qed.


(** * Further properties *)

(** ** The order of the checks *)

Lemma dispatch_missing {A} self (k : bool -> M A) w :
  keywords self !! "program" = None ->
  (vasp <- program_is_vasp self; k vasp) w = (Raise (KeyError "program"), w).
Proof.
  intros H. apply bind_raise. unfold program_is_vasp.
  apply bind_raise. unfold getitem. now rewrite H.
Qed.

(** X1. [is_ready_to_run] looks at the lock before it looks at the program:
    for an ingredient whose program is not ['vasp'] (or is missing) the call
    answers false while the directory is locked, and raises only once the
    directory is free. *)
Theorem locked_directory_masks_program_error (oracle : Oracle)
    (self : Ingredient) (p : string) (w : World) :
  keywords self !! "name" = Some (VStr p) ->
  keywords self !! "program" <> Some (VStr "vasp") ->
  (resolve (cwd w) p ∈ locked (fs w) ->
   is_ready_to_run oracle self w = (Ok (VBool false), w)) /\
  (resolve (cwd w) p ∉ locked (fs w) ->
   exists e,
     is_ready_to_run oracle self w = (Raise e, w) /\
     (e = KeyError "program" \/
      e = MASTError (class_name self) "Program not recognized (in is_complete)")).
Proof.
  intros Hn Hp. split.
  - now apply is_ready_to_run_locked.
  - intros Hfree. rewrite (is_ready_to_run_free oracle self p w Hn Hfree).
    destruct (keywords self !! "program") as [program |] eqn:Hprog.
    + exists (MASTError (class_name self) "Program not recognized (in is_complete)").
      split; [| now right].
      assert (Hne : program <> VStr "vasp") by congruence.
      now rewrite (bind_ok _ _ _ _ _ (program_is_vasp_other _ _ w Hprog Hne)).
    + exists (KeyError "program"). split; [| now left].
      now apply dispatch_missing.
Qed.

Lemma locked_directory_masks_program_error_witness :
  is_ready_to_run Sample.quiet Sample.abinit Sample2.locked_world
  = (Ok (VBool false), Sample2.locked_world) /\
  fst (is_ready_to_run Sample.quiet Sample.abinit Sample.world)
  = Raise (MASTError "Optimize" "Program not recognized (in is_complete)").
Proof.
  split.
  - destruct (locked_directory_masks_program_error Sample.quiet Sample.abinit
                "job" Sample2.locked_world eq_refl) as (H & _).
    + discriminate.
    + apply H. vm_compute. set_solver.
  - vm_compute. reflexivity.
Defined.

(** X2. Without a [program] keyword every dispatching method raises
    [KeyError('program')] before anything is called or changed;
    [is_ready_to_run] does so when the directory is not locked. *)
Theorem missing_program_raises_key_error (oracle : Oracle) (self : Ingredient)
    (w : World) :
  keywords self !! "program" = None ->
  (forall filepath,
      get_structure_from_file oracle self filepath w
      = (Raise (KeyError "program"), w)) /\
  (forall parentpath childpath newname,
      forward_parent_structure oracle self parentpath childpath newname w
      = (Raise (KeyError "program"), w)) /\
  (forall parentpath childpath newname,
      forward_parent_energy oracle self parentpath childpath newname w
      = (Raise (KeyError "program"), w)) /\
  is_complete oracle self w = (Raise (KeyError "program"), w) /\
  set_up_program_input oracle self w = (Raise (KeyError "program"), w) /\
  (forall image_structures,
      set_up_program_input_neb oracle self image_structures w
      = (Raise (KeyError "program"), w)) /\
  (forall parent,
      get_path_to_write_neb_parent_energy oracle self parent w
      = (Raise (KeyError "program"), w)) /\
  (forall p,
      keywords self !! "name" = Some (VStr p) ->
      resolve (cwd w) p ∉ locked (fs w) ->
      is_ready_to_run oracle self w = (Raise (KeyError "program"), w)).
Proof.
  intros H. repeat split; intros; try (now apply dispatch_missing).
  erewrite is_ready_to_run_free by eassumption.
  now apply dispatch_missing.
Qed.

Lemma missing_program_raises_key_error_witness :
  is_complete Sample.quiet Sample2.unconfigured Sample.world
  = (Raise (KeyError "program"), Sample.world).
Proof.
  destruct (missing_program_raises_key_error Sample.quiet Sample2.unconfigured
              Sample.world eq_refl) as (_ & _ & _ & H & _).
  exact H.
Defined.

(** X3. For a ['vasp'] ingredient the delegating methods place one call to
    the checker, with their arguments in order.  [get_structure_from_file]
    and the two input set-ups hand back what the checker returned; the two
    forwarders return [None] whatever the checker returned, and the energy
    forwarder calls the checker's energy forwarder.  An exception of the
    checker comes through in each. *)
Theorem vasp_methods_delegate (oracle : Oracle) (self : Ingredient) (w : World) :
  keywords self !! "program" = Some (VStr "vasp") ->
  (forall filepath,
      get_structure_from_file oracle self filepath w
      = call_out oracle (checker_get_structure_from_file filepath) w) /\
  set_up_program_input oracle self w
  = call_out oracle (checker_set_up_program_input (keywords self)) w /\
  (forall image_structures,
      set_up_program_input_neb oracle self image_structures w
      = call_out oracle
          (checker_set_up_program_input_neb (keywords self) image_structures) w) /\
  (forall parentpath childpath newname,
      forward_parent_structure oracle self parentpath childpath newname w
      = match call_out oracle
                (checker_forward_parent_structure parentpath childpath newname) w
        with
        | (Ok _, w') => (Ok VNone, w')
        | (Raise e, w') => (Raise e, w')
        end) /\
  (forall parentpath childpath newname,
      forward_parent_energy oracle self parentpath childpath newname w
      = match call_out oracle
                (checker_forward_parent_energy parentpath childpath newname) w
        with
        | (Ok _, w') => (Ok VNone, w')
        | (Raise e, w') => (Raise e, w')
        end).
Proof.
  intros Hv.
  pose proof (program_is_vasp_ok self w Hv) as Hd.
  repeat split; intros.
  - unfold get_structure_from_file. now rewrite (bind_ok _ _ _ _ _ Hd).
  - unfold set_up_program_input. now rewrite (bind_ok _ _ _ _ _ Hd).
  - unfold set_up_program_input_neb. now rewrite (bind_ok _ _ _ _ _ Hd).
  - unfold forward_parent_structure. rewrite (bind_ok _ _ _ _ _ Hd).
    unfold bind. now destruct (call_out oracle _ w) as [[v | e] w'].
  - unfold forward_parent_energy. rewrite (bind_ok _ _ _ _ _ Hd).
    unfold bind. now destruct (call_out oracle _ w) as [[v | e] w'].
Qed.

Lemma vasp_methods_delegate_witness :
  forward_parent_energy Sample.stalled Sample.optimize
    (VStr "parent") (VStr "job") (VStr "OSZICAR") Sample.world
  = (Ok VNone,
     after_call
       (checker_forward_parent_energy (VStr "parent") (VStr "job") (VStr "OSZICAR"))
       Sample.disk Sample.world).
Proof.
  destruct (vasp_methods_delegate Sample.stalled Sample.optimize Sample.world
              eq_refl) as (_ & _ & _ & _ & H).
  rewrite H. reflexivity.
Defined.

(** ** Creating the directory, continued *)

Lemma write_directory_no_name self w :
  keywords self !! "name" = None ->
  write_directory self w = (Raise (KeyError "name"), w).
Proof.
  intros H. unfold write_directory, try_except_OSError, bind, getitem.
  now rewrite H.
Qed.

Lemma write_directory_not_str self v w :
  keywords self !! "name" = Some v ->
  (forall s, v <> VStr s) ->
  write_directory self w = (Raise TypeError, w).
Proof.
  intros H Hv. unfold write_directory, try_except_OSError.
  rewrite (bind_ok _ _ _ _ _ (getitem_ok _ _ _ w H)).
  unfold bind, os_makedirs. destruct v; try reflexivity.
  now destruct (Hv s).
Qed.


(** X5. On a path that is free and not cut off by a file, [write_directory]
    makes the directory and every directory above it, prints nothing, and
    leaves what was there: the directories, the files, the locks and the
    working directory. *)
Theorem write_directory_creates (self : Ingredient) (p : string) (w : World) :
  keywords self !! "name" = Some (VStr p) ->
  let t := resolve (cwd w) p in
  path_exists (fs w) t = false ->
  blocked (fs w) t = false ->
  exists w',
    write_directory self w = (Ok VNone, w') /\
    t ∈ dirs (fs w') /\
    (forall a, a ∈ ancestors t -> a ∈ dirs (fs w')) /\
    dirs (fs w) ⊆ dirs (fs w') /\
    files (fs w') = files (fs w) /\ locked (fs w') = locked (fs w) /\
    cwd w' = cwd w /\ heap w' = heap w /\ trace w' = trace w.
Proof.
  intros Hn t Hfree Hclear.
  pose proof (write_directory_spec self p w Hn) as H. cbv zeta in H.
  fold t in H. rewrite Hfree, Hclear in H. simpl in H.
  eexists. split; [exact H |]. simpl.
  repeat split; try set_solver.
Qed.

Lemma write_directory_creates_witness :
  "/work/new" ∈ dirs (fs (snd (write_directory Sample2.fresh Sample.world))) /\
  "/work/new/run1" ∈ dirs (fs (snd (write_directory Sample2.fresh Sample.world))).
Proof.
  destruct (write_directory_creates Sample2.fresh "new/run1" Sample.world
              eq_refl eq_refl eq_refl) as (w' & Hrun & Hleaf & Habove & _).
  rewrite Hrun. simpl. split; [| exact Hleaf].
  apply Habove. vm_compute. set_solver.
Defined.

(** X6. Every [OSError] of [os.makedirs] is taken for "the directory
    exists": when a file sits at the path or cuts it off, [write_directory]
    prints the report and returns normally, and the directory is not there
    afterwards. *)
Theorem write_directory_reports_any_os_error (self : Ingredient) (p : string)
    (w : World) :
  keywords self !! "name" = Some (VStr p) ->
  let t := resolve (cwd w) p in
  t ∉ dirs (fs w) ->
  t ∈ files (fs w) \/ blocked (fs w) t = true ->
  exists w',
    write_directory self w = (Ok VNone, w') /\
    trace w' = (trace w ++ [EvPrint "Directory exists."])%list /\
    t ∉ dirs (fs w').
Proof.
  intros Hn t Hnot Hwhy.
  pose proof (write_directory_spec self p w Hn) as H. cbv zeta in H.
  fold t in H.
  assert (Hb : path_exists (fs w) t || blocked (fs w) t = true).
  { destruct Hwhy as [Hfile | Hcut].
    - unfold path_exists. rewrite (bool_decide_eq_true_2 _ Hfile).
      now rewrite orb_true_r.
    - rewrite Hcut. now rewrite orb_true_r. }
  rewrite Hb in H. eexists. split; [exact H |]. now split.
Qed.

Lemma write_directory_reports_any_os_error_witness :
  fst (write_directory Sample2.through_file Sample.world) = Ok VNone /\
  "/work/job/OUTCAR/sub"
    ∉ dirs (fs (snd (write_directory Sample2.through_file Sample.world))).
Proof.
  destruct (write_directory_reports_any_os_error Sample2.through_file
              "job/OUTCAR/sub" Sample.world eq_refl) as (w' & Hrun & _ & Hgone).
  - vm_compute. set_solver.
  - right. vm_compute. reflexivity.
  - rewrite Hrun. now split.
Defined.

(** X7. Whatever the ingredient and the state, [write_directory] never
    raises [OSError], never removes a directory, and touches neither the
    files, the locks, the working directory nor the object store. *)
Theorem write_directory_frame (self : Ingredient) (w : World) :
  fst (write_directory self w) <> Raise OSError /\
  dirs (fs w) ⊆ dirs (fs (snd (write_directory self w))) /\
  files (fs (snd (write_directory self w))) = files (fs w) /\
  locked (fs (snd (write_directory self w))) = locked (fs w) /\
  cwd (snd (write_directory self w)) = cwd w /\
  heap (snd (write_directory self w)) = heap w.
Proof.
  destruct (keywords self !! "name") as [v |] eqn:Hn.
  - destruct v as [| b | z | s | l | o].
    4: { rewrite (write_directory_spec self s w Hn).
         destruct (path_exists _ _ || blocked _ _); simpl;
           repeat split; try discriminate; set_solver. }
    all: rewrite (write_directory_not_str self _ w Hn) by discriminate;
      simpl; repeat split; try discriminate; set_solver.
  - rewrite (write_directory_no_name self w Hn).
    simpl. repeat split; try discriminate; set_solver.
Qed.

(** ** Running a job, continued *)

(** The launch of [run] in a mode it knows: fetch the command, start it,
    wait for it. *)
Lemma run_step_spec oracle mode c w1 :
  submission_command mode = Some c ->
  (if bool_decide (mode = VStr "noqsub")
   then programpath <- call_out oracle queue_direct_shell_command;
        call_out oracle (subprocess_popen_wait programpath) ;;; ret tt
   else if bool_decide (mode = VStr "serial")
        then queuesub <- call_out oracle queue_queue_submission_command;
             call_out oracle (subprocess_popen_wait queuesub) ;;; ret tt
        else ret tt) w1
  = (cmd <- call_out oracle c;
     call_out oracle (subprocess_popen_wait cmd) ;;; ret tt) w1.
Proof.
  unfold submission_command.
  repeat case_bool_decide; intros [= <-]; reflexivity.
Qed.

(** [run] up to the launch, once the job directory has been entered. *)
Lemma run_entered oracle self mode curdir p c w :
  keywords self !! "name" = Some (VStr p) ->
  resolve (cwd w) p ∈ dirs (fs w) ->
  submission_command mode = Some c ->
  run oracle self mode curdir w
  = ((cmd <- call_out oracle c;
      call_out oracle (subprocess_popen_wait cmd) ;;; ret tt) ;;;
     os_chdir (VStr (cwd w)) ;;;
     ret VNone) (set_cwd (resolve (cwd w) p) w).
Proof.
  intros Hn Hd Hc. unfold run.
  rewrite (bind_ok _ _ _ _ _ (os_getcwd_spec w)).
  rewrite (bind_ok _ _ _ _ _ (getitem_ok _ _ _ _ Hn)).
  rewrite (bind_ok _ _ _ _ _ (os_chdir_ok _ _ Hd)).
  unfold bind at 1. rewrite (run_step_spec oracle mode c _ Hc).
  reflexivity.
Qed.

(** X8. When the launch fails, [run] fails with it and the process stays in
    the job directory: if fetching the queue command raises, the command is
    never started; if starting the command raises, both calls have been
    made.  In neither case is the directory of entry gone back to. *)
Theorem run_failed_launch_stays_in_job_directory (oracle : Oracle)
    (self : Ingredient) (mode curdir : value) (p : string) (c : call)
    (w : World) :
  keywords self !! "name" = Some (VStr p) ->
  resolve (cwd w) p ∈ dirs (fs w) ->
  submission_command mode = Some c ->
  let job := resolve (cwd w) p in
  (forall e f1,
      oracle c job (fs w) = (Raise e, f1) ->
      run oracle self mode curdir w
      = (Raise e, after_call c f1 (set_cwd job w))) /\
  (forall cmd f1 e f2,
      oracle c job (fs w) = (Ok cmd, f1) ->
      oracle (subprocess_popen_wait cmd) job f1 = (Raise e, f2) ->
      run oracle self mode curdir w
      = (Raise e,
         after_call (subprocess_popen_wait cmd) f2
           (after_call c f1 (set_cwd job w)))).
Proof.
  intros Hn Hd Hc job.
  rewrite (run_entered oracle self mode curdir p c w Hn Hd Hc). fold job.
  split.
  - intros e f1 Ho. apply bind_raise. apply bind_raise.
    now apply call_out_spec.
  - intros cmd f1 e f2 Ho1 Ho2. apply bind_raise.
    rewrite (bind_ok _ _ _ _ _ (call_out_spec oracle c (set_cwd job w) _ _ Ho1)).
    apply bind_raise. now apply call_out_spec.
Qed.

Lemma run_failed_launch_stays_in_job_directory_witness :
  run Sample2.broken_launch Sample.optimize (VStr "serial") VNone Sample.world
  = (Raise OSError,
     after_call (subprocess_popen_wait (VStr "qsub submit.sh")) Sample.disk
       (after_call queue_queue_submission_command Sample.disk
          (set_cwd "/work/job" Sample.world))).
Proof.
  destruct (run_failed_launch_stays_in_job_directory Sample2.broken_launch
              Sample.optimize (VStr "serial") VNone "job"
              queue_queue_submission_command Sample.world eq_refl)
    as (_ & H).
  - vm_compute. set_solver.
  - reflexivity.
  - apply (H (VStr "qsub submit.sh") Sample.disk OSError Sample.disk);
      reflexivity.
Defined.

(** X9. When the launched command returns but the directory of entry is no
    longer there, the way back fails: [run] raises [OSError] and the process
    stays in the job directory. *)
Theorem run_entry_directory_gone (oracle : Oracle) (self : Ingredient)
    (mode curdir : value) (p : string) (c : call) (cmd status : value)
    (f1 f2 : FS) (w : World) :
  is_absolute (cwd w) = true ->
  keywords self !! "name" = Some (VStr p) ->
  resolve (cwd w) p ∈ dirs (fs w) ->
  submission_command mode = Some c ->
  let job := resolve (cwd w) p in
  oracle c job (fs w) = (Ok cmd, f1) ->
  oracle (subprocess_popen_wait cmd) job f1 = (Ok status, f2) ->
  cwd w ∉ dirs f2 ->
  run oracle self mode curdir w
  = (Raise OSError,
     after_call (subprocess_popen_wait cmd) f2 (after_call c f1 (set_cwd job w))).
Proof.
  intros Habs Hn Hd Hc job Ho1 Ho2 Hgone.
  rewrite (run_entered oracle self mode curdir p c w Hn Hd Hc). fold job.
  set (w1 := set_cwd job w).
  set (w3 := after_call (subprocess_popen_wait cmd) f2 (after_call c f1 w1)).
  assert (Hstep :
    (cmd0 <- call_out oracle c;
     call_out oracle (subprocess_popen_wait cmd0) ;;; ret tt) w1 = (Ok tt, w3)).
  { rewrite (bind_ok _ _ _ _ _ (call_out_spec oracle c w1 _ _ Ho1)).
    now rewrite (bind_ok _ _ _ _ _
                   (call_out_spec oracle _ (after_call c f1 w1) _ _ Ho2)). }
  rewrite (bind_ok _ _ _ _ _ Hstep).
  apply bind_raise. apply os_chdir_missing.
  now rewrite resolve_absolute.
Qed.

Lemma run_entry_directory_gone_witness :
  fst (run Sample2.sweeping Sample.optimize (VStr "noqsub") VNone Sample.world)
  = Raise OSError /\
  cwd (snd (run Sample2.sweeping Sample.optimize (VStr "noqsub") VNone
              Sample.world))
  = "/work/job".
Proof.
  rewrite (run_entry_directory_gone Sample2.sweeping Sample.optimize
             (VStr "noqsub") VNone "job" queue_direct_shell_command
             (VStr "vasp") (VInt 0) Sample.disk
             (mkFS (dirs Sample.disk ∖ {[ "/work" ]}) (files Sample.disk)
                   (locked Sample.disk))
             Sample.world eq_refl eq_refl).
  - split; reflexivity.
  - vm_compute. set_solver.
  - reflexivity.
  - reflexivity.
  - reflexivity.
  - vm_compute. set_solver.
Defined.

(** X10. [run] with a name it cannot enter does nothing: a missing [name]
    keyword raises [KeyError], a name that is not a string raises
    [TypeError], in every mode, before any collaborator is called and with
    the working directory where it was. *)
Theorem run_bad_name_changes_nothing (oracle : Oracle) (self : Ingredient)
    (mode curdir : value) (w : World) :
  (keywords self !! "name" = None ->
   run oracle self mode curdir w = (Raise (KeyError "name"), w)) /\
  (forall v,
      keywords self !! "name" = Some v ->
      (forall s, v <> VStr s) ->
      run oracle self mode curdir w = (Raise TypeError, w)).
Proof.
  split.
  - intros H. unfold run.
    rewrite (bind_ok _ _ _ _ _ (os_getcwd_spec w)).
    apply bind_raise. unfold getitem. now rewrite H.
  - intros v H Hv. unfold run.
    rewrite (bind_ok _ _ _ _ _ (os_getcwd_spec w)).
    rewrite (bind_ok _ _ _ _ _ (getitem_ok _ _ _ _ H)).
    apply bind_raise. unfold os_chdir. destruct v; try reflexivity.
    now destruct (Hv s).
Qed.

(** ** Completion, continued *)

(** X11. When the checker counts the run as complete, [is_complete] returns
    the checker's own answer (the value itself, not a fresh [True]) after
    that one call: the output artifact is not looked for and the error
    handler is not called.  This holds with and without images. *)
Theorem complete_run_returns_checker_value (oracle : Oracle)
    (self : Ingredient) (p : string) (l : loc) (d : dict) (w : World)
    (v : value) (f1 : FS) :
  keywords self !! "program" = Some (VStr "vasp") ->
  keywords self !! "name" = Some (VStr p) ->
  keywords self !! "program_keys" = Some (VRef l) ->
  heap w !! l = Some d ->
  oracle (completion_call p d) (cwd w) (fs w) = (Ok v, f1) ->
  truthy (heap w) v = true ->
  is_complete oracle self w = (Ok v, after_call (completion_call p d) f1 w).
Proof.
  intros Hv Hn Hpk Hh Ho Htrue.
  rewrite (is_complete_vasp oracle self p l d w v f1 Hv Hn Hpk Hh Ho).
  unfold after_completion.
  change (heap (after_call (completion_call p d) f1 w)) with (heap w).
  now rewrite Htrue.
Qed.

Lemma complete_run_returns_checker_value_witness :
  is_complete Sample2.finished Sample.optimize Sample.world
  = (Ok (VInt 1),
     after_call (checker_is_complete (VStr "job")) Sample.disk Sample.world).
Proof.
  exact (complete_run_returns_checker_value Sample2.finished Sample.optimize
           "job" 0 {[ "mast_xc" := VStr "pbe" ]} Sample.world (VInt 1)
           Sample.disk eq_refl eq_refl eq_refl eq_refl eq_refl eq_refl).
Defined.

(** X12. An exception of a collaborator is not turned into "not complete":
    if the checker raises, [is_complete] raises the same exception; if the
    checker answers "not complete", the output artifact is there and the
    error handler raises, [is_complete] raises that exception. *)
Theorem is_complete_propagates_collaborator_errors (oracle : Oracle)
    (self : Ingredient) (p : string) (l : loc) (d : dict) (w : World) :
  keywords self !! "program" = Some (VStr "vasp") ->
  keywords self !! "name" = Some (VStr p) ->
  keywords self !! "program_keys" = Some (VRef l) ->
  heap w !! l = Some d ->
  (forall e f1,
      oracle (completion_call p d) (cwd w) (fs w) = (Raise e, f1) ->
      is_complete oracle self w
      = (Raise e, after_call (completion_call p d) f1 w)) /\
  (forall v f1 e f2,
      oracle (completion_call p d) (cwd w) (fs w) = (Ok v, f1) ->
      truthy (heap w) v = false ->
      path_exists f1 (resolve (cwd w) (probe_path p d +:+ "/OUTCAR")) = true ->
      oracle (error_call p d) (cwd w) f1 = (Raise e, f2) ->
      is_complete oracle self w
      = (Raise e,
         after_call (error_call p d) f2
           (after_call (completion_call p d) f1 w))).
Proof.
  intros Hv Hn Hpk Hh. split.
  - intros e f1 Ho. now apply (is_complete_vasp_raise oracle self p l d).
  - intros v f1 e f2 Ho Hfalse Hthere He.
    rewrite (is_complete_vasp oracle self p l d w v f1 Hv Hn Hpk Hh Ho).
    unfold after_completion.
    set (w1 := after_call (completion_call p d) f1 w).
    change (heap w1) with (heap w). change (fs w1) with f1.
    change (cwd w1) with (cwd w).
    now rewrite Hfalse, Hthere, He.
Qed.

Lemma is_complete_propagates_collaborator_errors_witness :
  fst (is_complete Sample2.broken_handler Sample.optimize Sample.world)
  = Raise (ForeignError "vasp_error").
Proof.
  destruct (is_complete_propagates_collaborator_errors Sample2.broken_handler
              Sample.optimize "job" 0 {[ "mast_xc" := VStr "pbe" ]} Sample.world
              eq_refl eq_refl eq_refl eq_refl) as (_ & H).
  rewrite (H (VBool false) Sample.disk (ForeignError "vasp_error") Sample.disk);
    reflexivity.
Defined.

(** X13. [is_complete] reads [program_keys] also for a job without images:
    for a ['vasp'] ingredient with a name, a missing [program_keys] keyword
    raises [KeyError] and one that is not a dict raises [AttributeError],
    before the checker is asked. *)
Theorem is_complete_needs_program_keys (oracle : Oracle) (self : Ingredient)
    (name : value) (w : World) :
  keywords self !! "program" = Some (VStr "vasp") ->
  keywords self !! "name" = Some name ->
  (keywords self !! "program_keys" = None ->
   is_complete oracle self w = (Raise (KeyError "program_keys"), w)) /\
  (forall pk,
      keywords self !! "program_keys" = Some pk ->
      (forall l, pk <> VRef l) ->
      is_complete oracle self w = (Raise AttributeError, w)).
Proof.
  intros Hv Hn. split.
  - intros Hpk. unfold is_complete.
    rewrite (bind_ok _ _ _ _ _ (program_is_vasp_ok _ w Hv)).
    rewrite (bind_ok _ _ _ _ _ (getitem_ok _ _ _ w Hn)).
    apply bind_raise. unfold has_images. apply bind_raise.
    unfold getitem. now rewrite Hpk.
  - intros pk Hpk Hnot. unfold is_complete.
    rewrite (bind_ok _ _ _ _ _ (program_is_vasp_ok _ w Hv)).
    rewrite (bind_ok _ _ _ _ _ (getitem_ok _ _ _ w Hn)).
    apply bind_raise. unfold has_images.
    rewrite (bind_ok _ _ _ _ _ (getitem_ok _ _ _ w Hpk)).
    apply bind_raise. unfold as_dict. destruct pk; try reflexivity.
    now destruct (Hnot l).
Qed.

Lemma is_complete_needs_program_keys_witness :
  is_complete Sample.quiet Sample2.keyless Sample.world
  = (Raise (KeyError "program_keys"), Sample.world).
Proof.
  destruct (is_complete_needs_program_keys Sample.quiet Sample2.keyless
              (VStr "job") Sample.world eq_refl eq_refl) as (H & _).
  apply H. reflexivity.
Defined.

(** X14. [get_path_to_write_neb_parent_energy] of a ['vasp'] ingredient asks
    the checker with the name, the image count and the parent, in that
    order; on an ingredient whose program keys hold no [images] it raises
    [KeyError('images')] and asks nothing. *)
Theorem neb_parent_energy_path (oracle : Oracle) (self : Ingredient)
    (name parent : value) (l : loc) (d : dict) (w : World) :
  keywords self !! "program" = Some (VStr "vasp") ->
  keywords self !! "name" = Some name ->
  keywords self !! "program_keys" = Some (VRef l) ->
  heap w !! l = Some d ->
  (forall n,
      d !! "images" = Some n ->
      get_path_to_write_neb_parent_energy oracle self parent w
      = call_out oracle
          (checker_get_path_to_write_neb_parent_energy name n parent) w) /\
  (d !! "images" = None ->
   get_path_to_write_neb_parent_energy oracle self parent w
   = (Raise (KeyError "images"), w)).
Proof.
  intros Hv Hn Hpk Hh. split.
  - intros n Hi. unfold get_path_to_write_neb_parent_energy.
    rewrite (bind_ok _ _ _ _ _ (program_is_vasp_ok _ w Hv)).
    rewrite (bind_ok _ _ _ _ _ (getitem_ok _ _ _ w Hn)).
    now rewrite (bind_ok _ _ _ _ _ (images_count_spec _ _ _ _ w Hpk Hh Hi)).
  - intros Hi. unfold get_path_to_write_neb_parent_energy.
    rewrite (bind_ok _ _ _ _ _ (program_is_vasp_ok _ w Hv)).
    rewrite (bind_ok _ _ _ _ _ (getitem_ok _ _ _ w Hn)).
    apply bind_raise. unfold images_count.
    rewrite (bind_ok _ _ _ _ _ (getitem_ok _ _ _ w Hpk)).
    unfold bind, as_dict. rewrite Hh. unfold getitem. now rewrite Hi.
Qed.

Lemma neb_parent_energy_path_witness :
  get_path_to_write_neb_parent_energy Sample.quiet Sample.optimize (VInt 1)
    Sample.world
  = (Raise (KeyError "images"), Sample.world) /\
  trace (snd (get_path_to_write_neb_parent_energy Sample.quiet Sample.neb
                (VInt 2) Sample.world))
  = [EvCall (checker_get_path_to_write_neb_parent_energy
               (VStr "neb") (VInt 3) (VInt 2))].
Proof.
  split.
  - destruct (neb_parent_energy_path Sample.quiet Sample.optimize (VStr "job")
                (VInt 1) 0 {[ "mast_xc" := VStr "pbe" ]} Sample.world
                eq_refl eq_refl eq_refl eq_refl) as (_ & H).
    apply H. reflexivity.
  - destruct (neb_parent_energy_path Sample.quiet Sample.neb (VStr "neb")
                (VInt 2) 1 {[ "images" := VInt 3 ]} Sample.world
                eq_refl eq_refl eq_refl eq_refl) as (H & _).
    rewrite (H (VInt 3) eq_refl). reflexivity.
Defined.

(** ** Children, continued *)


(** X16. Every call of [get_children] makes a new object: two calls in a
    row return two different references, both different from the
    ingredient's own mapping, and what a caller does through one of them
    shows neither in the other nor in the ingredient's mapping. *)
Theorem get_children_twice_independent (self : Ingredient) (l : loc)
    (d : dict) (w : World) :
  keywords self !! "child_dict" = Some (VRef l) ->
  heap w !! l = Some d ->
  d <> ∅ ->
  exists c1 c2 w1 w2,
    get_children self w = (Ok (VRef c1), w1) /\
    get_children self w1 = (Ok (VRef c2), w2) /\
    c1 <> c2 /\ c1 <> l /\ c2 <> l /\
    heap w2 !! c1 = Some d /\ heap w2 !! c2 = Some d /\
    (forall ms,
        heap (mutate (VRef c1) ms w2) !! c2 = Some d /\
        heap (mutate (VRef c1) ms w2) !! l = Some d) /\
    (forall ms,
        heap (mutate (VRef c2) ms w2) !! c1 = Some d /\
        heap (mutate (VRef c2) ms w2) !! l = Some d).
Proof.
  intros Hc Hh Hne.
  assert (Hlt : l < length (heap w)) by (eapply lookup_lt_Some; eassumption).
  set (w1 := set_heap (heap w ++ [d]) w).
  set (w2 := set_heap (heap w1 ++ [d]) w1).
  assert (Hh1 : heap w1 !! l = Some d)
    by (unfold w1; simpl; now rewrite lookup_app_l).
  assert (Hlen1 : length (heap w1) = S (length (heap w)))
    by (unfold w1; simpl; rewrite length_app; simpl; lia).
  assert (Hheap2 : heap w2 = (heap w1 ++ [d])%list) by reflexivity.
  assert (Hheap1 : heap w1 = (heap w ++ [d])%list) by reflexivity.
  assert (Hl2 : heap w2 !! l = Some d).
  { rewrite Hheap2. rewrite lookup_app_l by lia. exact Hh1. }
  assert (Hc1 : heap w2 !! length (heap w) = Some d).
  { rewrite Hheap2. rewrite lookup_app_l by lia.
    rewrite Hheap1. rewrite lookup_app_r by lia. now rewrite Nat.sub_diag. }
  assert (Hc2 : heap w2 !! length (heap w1) = Some d).
  { rewrite Hheap2. rewrite lookup_app_r by lia. now rewrite Nat.sub_diag. }
  exists (length (heap w)), (length (heap w1)), w1, w2.
  repeat apply conj; try lia; try assumption.
  - rewrite (get_children_spec self l d w Hc Hh).
    now rewrite bool_decide_eq_false_2.
  - rewrite (get_children_spec self l d w1 Hc Hh1).
    now rewrite bool_decide_eq_false_2.
  - intros ms. split; rewrite mutate_other by lia; assumption.
  - intros ms. split; rewrite mutate_other by lia; assumption.
Qed.

Lemma get_children_twice_independent_witness :
  exists c1 c2 w1 w2,
    get_children Sample.optimize Sample.world = (Ok (VRef c1), w1) /\
    get_children Sample.optimize w1 = (Ok (VRef c2), w2) /\
    c1 <> c2 /\
    heap (mutate (VRef c1) [DelItem "relax"] w2) !! c2
    = Some {[ "relax" := VObj 7 ]}.
Proof.
  destruct (get_children_twice_independent Sample.optimize 2
              {[ "relax" := VObj 7 ]} Sample.world eq_refl eq_refl)
    as (c1 & c2 & w1 & w2 & H1 & H2 & Hne & _ & _ & _ & _ & Hm & _).
  - vm_compute. discriminate.
  - exists c1, c2, w1, w2. repeat split; try assumption. apply Hm.
Defined.

(** ** The short name *)

Lemma string_app_cons c (s t : string) : String c s +:+ t = String c (s +:+ t).
Proof. reflexivity. Qed.

Lemma string_app_nil_r (s : string) : s +:+ "" = s.
Proof.
  induction s as [| c s IH]; [reflexivity |].
  rewrite string_app_cons. now f_equal.
Qed.

Lemma string_app_assoc (a b c : string) : (a +:+ b) +:+ c = a +:+ (b +:+ c).
Proof.
  induction a as [| x a IH]; [reflexivity |].
  rewrite !string_app_cons. now f_equal.
Qed.

Lemma no_slash_app (a b : string) :
  no_slash (a +:+ b) = no_slash a && no_slash b.
Proof.
  induction a as [| x a IH]; [reflexivity |].
  rewrite string_app_cons. simpl. rewrite IH. now rewrite andb_assoc.
Qed.

(** A text without separator is one piece. *)
Lemma split_from_no_slash cur b :
  no_slash b = true -> split_from cur b = [cur +:+ b].
Proof.
  revert cur. induction b as [| c b IH]; intros cur Hb; simpl.
  - now rewrite string_app_nil_r.
  - simpl in Hb. apply andb_true_iff in Hb as [Hc Hb].
    apply negb_true_iff in Hc. rewrite Hc.
    rewrite (IH _ Hb). now rewrite string_app_assoc.
Qed.

(** The last piece is what follows the last separator. *)
Lemma last_split_from cur s :
  no_slash cur = true ->
  exists x pre,
    last (split_from cur s) = Some x /\
    cur +:+ s = pre +:+ x /\
    no_slash x = true /\
    (pre = "" \/ exists q, pre = q +:+ "/").
Proof.
  revert cur. induction s as [| c s IH]; intros cur Hcur.
  - exists cur, "". simpl. rewrite string_app_nil_r. auto.
  - simpl. destruct (Ascii.eqb c "/") eqn:Hc.
    + apply Ascii.eqb_eq in Hc as ->.
      destruct (IH "" eq_refl) as (x & pre & Hlast & Hsplit & Hx & Hpre).
      change ("" +:+ s) with s in Hsplit.
      exists x, (cur +:+ "/" +:+ pre).
      rewrite last_cons, Hlast. repeat split.
      * rewrite Hsplit. now rewrite !string_app_assoc.
      * exact Hx.
      * right. destruct Hpre as [-> | (q & ->)].
        -- now exists cur.
        -- exists (cur +:+ "/" +:+ q). now rewrite !string_app_assoc.
    + destruct (IH (cur +:+ String c "")) as (x & pre & Hlast & Hsplit & Hx & Hpre).
      { rewrite no_slash_app, Hcur. simpl. now rewrite Hc. }
      exists x, pre. repeat split; try assumption.
      rewrite <- Hsplit. now rewrite string_app_assoc.
Qed.

Lemma last_split_from_joined cur dir base :
  no_slash base = true ->
  last (split_from cur (dir +:+ "/" +:+ base)) = Some base.
Proof.
  intros Hb. revert cur. induction dir as [| c dir IH]; intros cur.
  - change ("" +:+ "/" +:+ base) with (String "/" base). simpl.
    now rewrite (split_from_no_slash "" base Hb).
  - rewrite string_app_cons. simpl. destruct (Ascii.eqb c "/").
    + rewrite last_cons. now rewrite IH.
    + apply IH.
Qed.

Lemma get_name_spec self p w :
  keywords self !! "name" = Some (VStr p) ->
  get_name self w
  = match last (split_slash p) with
    | Some x => (Ok (VStr x), w)
    | None => (Raise (ForeignError "IndexError"), w)
    end.
Proof.
  intros Hn. unfold get_name.
  rewrite (bind_ok _ _ _ _ _ (getitem_ok _ _ _ w Hn)).
  unfold bind, str_split_slash, ret, index_last.
  now destruct (last (split_slash p)).
Qed.

(** X17. For a name that is a string, [get_name] always returns (the index
    [-1] never fails, [split] gives at least one piece) and changes
    nothing; what it returns is the end of the name, it has no ['/'] in it,
    and what stands before it is empty or ends in ['/']. *)
Theorem get_name_is_last_segment (self : Ingredient) (p : string) (w : World) :
  keywords self !! "name" = Some (VStr p) ->
  exists x pre,
    get_name self w = (Ok (VStr x), w) /\
    p = pre +:+ x /\
    no_slash x = true /\
    (pre = "" \/ exists q, pre = q +:+ "/").
Proof.
  intros Hn. rewrite (get_name_spec self p w Hn).
  destruct (last_split_from "" p eq_refl) as (x & pre & Hlast & Hsplit & Hx & Hpre).
  exists x, pre. unfold split_slash. rewrite Hlast. auto.
Qed.

Lemma get_name_is_last_segment_witness :
  exists x pre,
    get_name Sample2.through_file Sample.world = (Ok (VStr x), Sample.world) /\
    "job/OUTCAR/sub" = pre +:+ x /\
    no_slash x = true.
Proof.
  destruct (get_name_is_last_segment Sample2.through_file "job/OUTCAR/sub"
              Sample.world eq_refl) as (x & pre & H1 & H2 & H3 & _).
  now exists x, pre.
Defined.

(** X18. The short name of a job directory [dir/base], with [base] free of
    ['/'], is [base], and a name without ['/'] is its own short name; a name
    that ends in ['/'] has the empty short name. *)
Theorem get_name_of_joined_path (self : Ingredient) (p dir base : string)
    (w : World) :
  keywords self !! "name" = Some (VStr p) ->
  no_slash base = true ->
  (p = base -> get_name self w = (Ok (VStr base), w)) /\
  (p = dir +:+ "/" +:+ base -> get_name self w = (Ok (VStr base), w)) /\
  (p = dir +:+ "/" -> get_name self w = (Ok (VStr ""), w)).
Proof.
  intros Hn Hb. rewrite (get_name_spec self p w Hn). unfold split_slash.
  repeat split; intros ->.
  - now rewrite (split_from_no_slash "" base Hb).
  - now rewrite (last_split_from_joined "" dir base Hb).
  - change (dir +:+ "/") with (dir +:+ "/" +:+ "").
    now rewrite (last_split_from_joined "" dir "" eq_refl).
Qed.

Lemma get_name_of_joined_path_witness :
  get_name Sample.optimize Sample.world = (Ok (VStr "job"), Sample.world) /\
  get_name Sample2.through_file Sample.world = (Ok (VStr "sub"), Sample.world).
Proof.
  split.
  - destruct (get_name_of_joined_path Sample.optimize "job" "" "job"
                Sample.world eq_refl eq_refl) as (H & _).
    now apply H.
  - destruct (get_name_of_joined_path Sample2.through_file "job/OUTCAR/sub"
                "job/OUTCAR" "sub" Sample.world eq_refl eq_refl) as (_ & H & _).
    now apply H.
Defined.

(** ** Structures from input options *)

Lemma lower_char_idem c :
  Utility.lower_char (Utility.lower_char c) = Utility.lower_char c.
Proof.
  destruct c as [[] [] [] [] [] [] [] []]; vm_compute; reflexivity.
Qed.

Lemma lower_idem s : Utility.lower (Utility.lower s) = Utility.lower s.
Proof.
  induction s as [| c s IH]; simpl; [reflexivity |].
  now rewrite lower_char_idem, IH.
Qed.

(** X19. [MAST2Structure] does not look at the case of the coordinate type:
    a type and its lower-case form give the same call of the structure
    constructor and the same result. *)
Theorem MAST2Structure_case_insensitive (structure : Utility.Constructor)
    (lattice coordinates atom_list : value) (t : string) :
  Utility.MAST2Structure structure lattice coordinates atom_list (VStr t)
  = Utility.MAST2Structure structure lattice coordinates atom_list
      (VStr (Utility.lower t)).
Proof.
  unfold Utility.MAST2Structure. now rewrite lower_idem.
Qed.

(** X20. A coordinate type that is neither ['fractional'] nor ['cartesian']
    (in any case) is not an error: [MAST2Structure] returns [None] and the
    structure constructor is not called. *)
Theorem MAST2Structure_unknown_type_none (structure : Utility.Constructor)
    (lattice coordinates atom_list : value) (t : string) :
  Utility.lower t <> "fractional" ->
  Utility.lower t <> "cartesian" ->
  Utility.MAST2Structure structure lattice coordinates atom_list (VStr t)
  = Ok VNone.
Proof.
  intros Hf Hc. unfold Utility.MAST2Structure.
  apply String.eqb_neq in Hf, Hc. now rewrite Hf, Hc.
Qed.

Lemma MAST2Structure_unknown_type_none_witness :
  Utility.MAST2Structure Sample2.structure (VObj 0) (VObj 1) (VObj 2)
    (VStr "Direct")
  = Ok VNone.
Proof.
  apply MAST2Structure_unknown_type_none; vm_compute; discriminate.
Defined.

(** ** Methods that only ask *)

Lemma pure_ret {A} (a : A) : pure (ret a).
Proof. now intros w. Qed.

Lemma pure_raise {A} e : pure (@raise A e).
Proof. now intros w. Qed.

Lemma pure_bind {A B} (m : M A) (k : A -> M B) :
  pure m -> (forall a, pure (k a)) -> pure (bind m k).
Proof.
  intros Hm Hk w. unfold bind. specialize (Hm w).
  destruct (m w) as [[a | e] w1]; simpl in Hm; subst w1; [apply Hk | reflexivity].
Qed.

Lemma pure_getitem d k : pure (getitem d k).
Proof. intros w. unfold getitem. now destruct (d !! k). Qed.

Lemma pure_as_dict v : pure (as_dict v).
Proof.
  intros w. unfold as_dict. destruct v; try reflexivity.
  now destruct (heap w !! l).
Qed.

Lemma pure_add_str v s : pure (add_str v s).
Proof. intros w. now destruct v. Qed.

Lemma pure_truth v : pure (truth v).
Proof. now intros w. Qed.

Lemma pure_os_path_exists v : pure (os_path_exists v).
Proof. intros w. now destruct v. Qed.

Lemma pure_dirutil_directory_is_locked v : pure (dirutil_directory_is_locked v).
Proof. intros w. now destruct v. Qed.

Create HintDb pure_db.
#[local] Hint Resolve pure_ret pure_raise pure_getitem pure_as_dict pure_add_str
  pure_truth pure_os_path_exists pure_dirutil_directory_is_locked : pure_db.

Ltac pure_steps :=
  repeat first
    [ apply pure_bind; [| intros ? ]
    | solve [ auto with pure_db ] ].

Lemma pure_program_is_vasp self : pure (program_is_vasp self).
Proof. unfold program_is_vasp. pure_steps. Qed.

Lemma pure_has_images self : pure (has_images self).
Proof. unfold has_images. pure_steps. Qed.

Lemma pure_images_count self : pure (images_count self).
Proof. unfold images_count. pure_steps. Qed.

Lemma pure_directory_is_locked self : pure (directory_is_locked self).
Proof. unfold directory_is_locked. pure_steps. Qed.

#[local] Hint Resolve pure_program_is_vasp pure_has_images pure_images_count
  pure_directory_is_locked : pure_db.

Lemma asks_only_pure {A} allowed (m : M A) : pure m -> asks_only allowed m.
Proof.
  intros Hm w. exists []. rewrite (Hm w). simpl.
  now rewrite app_nil_r.
Qed.

Lemma asks_only_call oracle allowed c :
  allowed c = true -> asks_only allowed (call_out oracle c).
Proof.
  intros Hc w. exists [c]. unfold call_out.
  destruct (oracle c (cwd w) (fs w)) as [r f]. simpl.
  rewrite Hc. repeat split. discriminate.
Qed.

Lemma asks_only_bind {A B} allowed (m : M A) (k : A -> M B) :
  asks_only allowed m ->
  (forall a, asks_only allowed (k a)) ->
  asks_only allowed (bind m k).
Proof.
  intros Hm Hk w. unfold bind.
  destruct (Hm w) as (c1 & Ht1 & Ha1 & Hc1 & Hh1 & Hw1).
  destruct (m w) as [[a | e] w1]; simpl in *.
  - destruct (Hk a w1) as (c2 & Ht2 & Ha2 & Hc2 & Hh2 & Hw2).
    exists (c1 ++ c2)%list. repeat split.
    + rewrite Ht2, Ht1, map_app. now rewrite app_assoc.
    + rewrite forallb_app. now rewrite Ha1, Ha2.
    + congruence.
    + congruence.
    + intros [-> ->]%app_eq_nil. rewrite Hw2, Hw1; reflexivity.
  - now exists c1.
Qed.

Ltac asks_steps :=
  repeat first
    [ apply asks_only_bind; [| intros ? ]
    | apply asks_only_call; reflexivity
    | apply asks_only_pure; solve [ pure_steps ]
    | match goal with
      | |- asks_only _ (if ?b then _ else _) => destruct b
      | |- asks_only _ (let '(_, _) := ?x in _) => destruct x
      | |- asks_only _ (mast_error _ _) => apply asks_only_pure, pure_raise
      end ].

(** X21. Whatever the ingredient, the state and the collaborators do,
    [is_complete] does nothing of its own: it only calls the checker's
    completion test and the error handler (never the queue or a process),
    prints nothing, stays in the working directory, leaves the object store,
    and leaves the whole state untouched when it calls nobody. *)
Theorem is_complete_asks_only (oracle : Oracle) (self : Ingredient) :
  asks_only completion_query (is_complete oracle self).
Proof. unfold is_complete. asks_steps. Qed.

(** X22. Whatever the ingredient, the state and the collaborators do,
    [is_ready_to_run] only ever calls the checker's readiness test; it prints
    nothing, keeps the working directory and the object store, and leaves
    the whole state untouched when it calls nobody. *)
Theorem is_ready_to_run_asks_only (oracle : Oracle) (self : Ingredient) :
  asks_only readiness_query (is_ready_to_run oracle self).
Proof. unfold is_ready_to_run. asks_steps. Qed.
